(** * barcodes.py: inventory barcode sheet generator

    A shallow embedding of [src/barcodes.py] and the properties of its three
    stages: the data loader ([get_data_from_db]), the barcode generator
    ([generate_temp_barcode]) and the document assembler ([create_pdf]),
    driven by [main].

    Modelling conventions.
    - A Python [str] is a [string]; each [ascii] is read as the Unicode code
      point of the same number (0..255), so that [isalnum] below is Python's
      [str.isalnum] on that range.
    - The file system is a finite map from paths to files; the console is the
      list of lines printed so far.  Both form the [World] threaded through
      the program.
    - The third-party libraries (sqlite3/pandas, python-barcode, ReportLab)
      are described by the data they are handed and by an [Env] record that
      says which of their calls raise.
    - Lengths are rationals; [mm] is ReportLab's millimetre in points. *)

From Stdlib Require Import String Ascii QArith DecimalString.
From stdpp Require Import gmap strings list fin_maps.

Local Open Scope string_scope.
Local Open Scope list_scope.

(** ** Python builtins used by the script *)

Module Py.

(** Exceptions.  [Exception cls msg] is an instance of a class deriving
    from [Exception]; [BaseException cls msg] is an instance of a class
    deriving from [BaseException] only (KeyboardInterrupt, SystemExit,
    GeneratorExit). *)
Inductive PyExc : Type :=
| Exception (cls msg : string)
| BaseException (cls msg : string).

(** [isinstance(e, Exception)] *)
Definition isinstance_Exception (e : PyExc) : bool :=
  match e with
  | Exception _ _ => true
  | BaseException _ _ => false
  end.

(** [str(e)] for an exception *)
Definition str_exc (e : PyExc) : string :=
  match e with
  | Exception _ msg => msg
  | BaseException _ msg => msg
  end.

Definition between (lo hi n : N) : bool := ((lo <=? n) && (n <=? hi))%N.

(** [c.isalnum()] for a one-character string, on code points 0..255:
    the ASCII digits and letters, and in the Latin-1 supplement the
    letters (U+00AA, U+00B5, U+00BA, U+00C0..U+00FF without the two
    operators U+00D7 and U+00F7), the superscript digits (U+00B2, U+00B3,
    U+00B9) and the vulgar fractions (U+00BC..U+00BE). *)
Definition isalnum (c : ascii) : bool :=
  let n := N_of_ascii c in
  between 48 57 n || between 65 90 n || between 97 122 n
  || (n =? 170)%N || between 178 179 n || (n =? 181)%N
  || between 185 186 n || between 188 190 n
  || between 192 214 n || between 216 246 n || between 248 255 n.

(** [str(v)] for a cell of an object column: a string is itself, [None]
    prints as the word None. *)
Definition str (v : option string) : string :=
  match v with
  | Some s => s
  | None => "None"
  end.

(** Truth value of a cell of an object column: [None] and the empty
    string are false, every other string is true. *)
Definition truthy (v : option string) : bool :=
  match v with
  | Some EmptyString => false
  | Some (String _ _) => true
  | None => false
  end.

(** The list comprehension [[c if c.isalnum() else '_' for c in s]] joined
    by the empty string. *)
Fixpoint join_map (f : ascii -> ascii) (s : string) : string :=
  match s with
  | EmptyString => EmptyString
  | String c r => String (f c) (join_map f r)
  end.

Definition startswith_slash (s : string) : bool :=
  match s with
  | String "/"%char _ => true
  | _ => false
  end.

Fixpoint endswith_slash (s : string) : bool :=
  match s with
  | EmptyString => false
  | String c EmptyString => Ascii.eqb c "/"%char
  | String _ r => endswith_slash r
  end.

(** [os.path.join(a, b)] (posixpath, two arguments). *)
Definition os_path_join (a b : string) : string :=
  if startswith_slash b then b
  else if (String.eqb a EmptyString || endswith_slash a)%bool then a ++ b
  else a ++ "/" ++ b.

(** [len(df)] as printed by an f-string: decimal digits. *)
Definition format_nat (n : nat) : string :=
  NilEmpty.string_of_uint (Nat.to_uint n).

End Py.

Export Py.

(** ** The libraries' data *)

(** ReportLab's [mm] (72/25.4 points), as the exact rational. *)
Definition mm : Q := 360 # 127.

(** The [options] dictionary handed to python-barcode. *)
Record BarcodeOptions : Type := mkOptions {
  write_text : bool;
  font_size : Z;
  module_height : Q;
  quiet_zone : Q
}.

(** ReportLab flowables. *)
Record Image : Type := mkImage {
  img_filename : string;
  drawHeight : Q;
  drawWidth : Q
}.

Record ParagraphStyle : Type := mkParagraphStyle {
  style_name : string;
  style_parent : string;
  fontSize : Z;
  alignment : Z;
  spaceBefore : Z;
  spaceAfter : Z
}.

Record Paragraph : Type := mkParagraph {
  para_text : string;
  para_style : ParagraphStyle
}.

Inductive Flowable : Type :=
| FImage (i : Image)
| FParagraph (p : Paragraph).

(** A table cell is a list of flowables; the empty list is an empty cell. *)
Definition Cell : Type := list Flowable.

Inductive StyleCmd : Type :=
| ALIGN (start stop : Z * Z) (v : string)
| VALIGN (start stop : Z * Z) (v : string)
| GRID (start stop : Z * Z) (weight : Q) (colour : string)
| LEFTPADDING (start stop : Z * Z) (n : Z)
| RIGHTPADDING (start stop : Z * Z) (n : Z)
| TOPPADDING (start stop : Z * Z) (n : Z)
| BOTTOMPADDING (start stop : Z * Z) (n : Z).

Record Table : Type := mkTable {
  table_data : list (list Cell);
  colWidths : list Q;
  table_style : list StyleCmd
}.

Record SimpleDocTemplate : Type := mkDoc {
  doc_filename : string;
  pagesize : string;
  rightMargin : Q;
  leftMargin : Q;
  topMargin : Q;
  bottomMargin : Q
}.

(** ** The database and the data frame *)

(** A row of the [laptops] table (the two columns the query selects);
    [None] is SQL NULL. *)
Record LaptopRow : Type := mkRow {
  row_serial : option string;
  row_device_name : option string
}.

(** A row of the data frame, as [iterrows] yields it: [item['serial']] and
    [item['device_name']]; [None] is Python's None. *)
Record Item : Type := mkItem {
  serial : option string;
  device_name : option string
}.

Record DataFrame : Type := mkDataFrame {
  df_columns : list string;
  df_rows : list Item
}.

(** [pd.DataFrame()] *)
Definition DataFrame_new : DataFrame := mkDataFrame [] [].

(** [len(df)] *)
Definition df_len (df : DataFrame) : nat := length (df_rows df).

(** [df.empty]: some axis has length 0. *)
Definition df_empty (df : DataFrame) : bool :=
  (Nat.eqb (length (df_columns df)) 0 || Nat.eqb (length (df_rows df)) 0)%bool.

(** ** The world: file system and console *)

Inductive File : Type :=
| Directory
| SqliteDb (laptops : option (list LaptopRow))
| BarcodePng (payload : string) (options : BarcodeOptions)
| PdfFile (doc : SimpleDocTemplate) (elements : list Table)
| PartialFile
| OtherFile.

(** The lines the script prints, one constructor per format string:
    - [MsgDbNotFound f]: cross mark, "Database '<f>' niet gevonden."
    - [MsgRecords n]: "Records gevonden: <n>"
    - [MsgNoData]: "Geen data om te verwerken."
    - [MsgPdfInfo f]: "[INFO] PDF genereren: <f>..."
    - [MsgPdfSuccess p]: check mark, "Succes! PDF staat in: <p>"
    - [MsgPdfError e]: cross mark, "Fout bij maken PDF: <e>" *)
Inductive Msg : Type :=
| MsgDbNotFound (db_file : string)
| MsgRecords (n : string)
| MsgNoData
| MsgPdfInfo (pdf : string)
| MsgPdfSuccess (abspath : string)
| MsgPdfError (cause : string).

Record World : Type := mkWorld {
  fs : gmap string File;
  console : list Msg
}.

(** What the libraries do that the script does not decide. *)
Record Env : Type := mkEnv {
  (** the working directory, for [os.path.abspath] *)
  cwd : string;
  (** the exception sqlite3/pandas raise when the file at the database path
      cannot be queried (not a database, no [laptops] table) *)
  sqlite_error : PyExc;
  (** the exception, if any, that [Code128(payload, ...)] or its [save]
      raises for a payload (IllegalCharacterError for a character outside
      the symbology) *)
  code128_raises : string -> option PyExc;
  (** the exception, if any, that [Paragraph(text, style)] raises while
      parsing its markup *)
  paragraph_raises : string -> option PyExc;
  (** the exception, if any, that [doc.build(elements)] raises, and whether
      it left a partly written file behind *)
  build_raises : SimpleDocTemplate -> list Table -> gmap string File -> option (PyExc * bool)
}.

(** ** Statements: world passing with exceptions *)

Inductive Result (A : Type) : Type :=
| Return (a : A)
| Raise (e : PyExc).
Arguments Return {A} a.
Arguments Raise {A} e.

Definition M (A : Type) : Type := World -> Result A * World.

Definition ret {A} (a : A) : M A := fun w => (Return a, w).

Definition bind {A B} (c : M A) (k : A -> M B) : M B :=
  fun w =>
    match c w with
    | (Return a, w') => k a w'
    | (Raise e, w') => (Raise e, w')
    end.

Definition raise {A} (e : PyExc) : M A := fun w => (Raise e, w).

(** [try: c  except Exception as e: h(e)] *)
Definition try_except_Exception {A} (c : M A) (h : PyExc -> M A) : M A :=
  fun w =>
    match c w with
    | (Return a, w') => (Return a, w')
    | (Raise e, w') =>
        if isinstance_Exception e then h e w' else (Raise e, w')
    end.

Declare Scope py_scope.
Delimit Scope py_scope with py.
Notation "x <- c ;; k" := (bind c (fun x => k))
  (at level 100, c at next level, k at level 200, right associativity) : py_scope.
Notation "c ;; k" := (bind c (fun _ => k))
  (at level 100, k at level 200, right associativity) : py_scope.
Local Open Scope py_scope.

(** [print(...)] *)
Definition print (m : Msg) : M unit :=
  fun w => (Return tt, mkWorld (fs w) (console w ++ [m])).

(** [os.path.exists(p)] *)
Definition os_path_exists (p : string) : M bool :=
  fun w => (Return (match fs w !! p with Some _ => true | None => false end), w).

(** [os.path.abspath(p)] for a relative path without dot segments. *)
Definition os_path_abspath (env : Env) (p : string) : string :=
  os_path_join (cwd env) p.

(** [os.makedirs(d, exist_ok=True)] for a one-segment path: creates the
    directory, accepts an existing directory, and raises FileExistsError
    when the path is taken by something else. *)
Definition os_makedirs (d : string) : M unit :=
  fun w =>
    match fs w !! d with
    | None => (Return tt, mkWorld (<[d := Directory]> (fs w)) (console w))
    | Some Directory => (Return tt, w)
    | Some _ => (Raise (Exception "FileExistsError" d), w)
    end.

(** ** Configuration *)

Definition DB_FILE : string := "inventaris.sqlite".
Definition PDF_FILENAME : string := "inventaris_barcodes.pdf".
Definition TEMP_IMG_DIR : string := "temp_barcodes".

(** ** Stage 1: the data loader *)

Module Sql.

(** SQL's three-valued logic: [None] is UNKNOWN. *)
Definition is_not_null (v : option string) : option bool :=
  Some (bool_decide (is_Some v)).

Definition ne (a b : option string) : option bool :=
  match a, b with
  | Some x, Some y => Some (negb (String.eqb x y))
  | _, _ => None
  end.

Definition and3 (p q : option bool) : option bool :=
  match p, q with
  | Some false, _ => Some false
  | _, Some false => Some false
  | Some true, Some true => Some true
  | _, _ => None
  end.

(** [WHERE serial IS NOT NULL AND serial != ''] *)
Definition where_clause (r : LaptopRow) : option bool :=
  and3 (is_not_null (row_serial r)) (ne (row_serial r) (Some EmptyString)).

(** A row is kept when the condition is TRUE (not FALSE, not UNKNOWN). *)
Definition keeps (r : LaptopRow) : bool :=
  match where_clause r with
  | Some true => true
  | _ => false
  end.

(** [SELECT serial, device_name] *)
Definition select (r : LaptopRow) : Item :=
  mkItem (row_serial r) (row_device_name r).

(** [SELECT serial, device_name FROM laptops WHERE ...] over the table
    in the order the engine scans it. *)
Fixpoint query (laptops : list LaptopRow) : list Item :=
  match laptops with
  | [] => []
  | r :: rest => if keeps r then select r :: query rest else query rest
  end.

End Sql.

(** [pd.read_sql_query(query, conn)] on the connection to [DB_FILE]. *)
Definition read_sql_query (env : Env) : M DataFrame :=
  fun w =>
    match fs w !! DB_FILE with
    | Some (SqliteDb (Some laptops)) =>
        (Return (mkDataFrame ["serial"; "device_name"] (Sql.query laptops)), w)
    | _ => (Raise (sqlite_error env), w)
    end.

Definition get_data_from_db (env : Env) : M DataFrame :=
  found <- os_path_exists DB_FILE ;;
  if negb found then
    print (MsgDbNotFound DB_FILE) ;;
    ret DataFrame_new
  else
    df <- read_sql_query env ;;
    ret df.

(** ** Stage 2: the barcode generator *)

(** [c if c.isalnum() else '_'] *)
Definition safe_char (c : ascii) : ascii :=
  if isalnum c then c else "_"%char.

(** [safe_sn] *)
Definition safe_sn (serial : option string) : string :=
  join_map safe_char (str serial).

Definition barcode_options : BarcodeOptions :=
  {| write_text := true;
     font_size := 8;
     module_height := 10;
     quiet_zone := 1 |}.

(** [Code128(payload, writer=ImageWriter()).save(file_path, options)]:
    ImageWriter appends the extension itself, the file is written (an
    existing one is replaced) and its path returned. *)
Definition code128_save (env : Env) (payload file_path : string)
    (options : BarcodeOptions) : M string :=
  match code128_raises env payload with
  | Some e => raise e
  | None =>
      fun w =>
        let saved_path := (file_path ++ ".png")%string in
        (Return saved_path,
         mkWorld (<[saved_path := BarcodePng payload options]> (fs w)) (console w))
  end.

Definition generate_temp_barcode (env : Env) (serial : option string)
    (outdir : string) : M string :=
  let safe_sn := safe_sn serial in
  let file_path := os_path_join outdir safe_sn in
  let options := barcode_options in
  saved_path <- code128_save env (str serial) file_path options ;;
  ret saved_path.

(** ** Stage 3: the document assembler *)

(** [Paragraph(text, style)] *)
Definition Paragraph_new (env : Env) (text : string) (style : ParagraphStyle)
    : M Paragraph :=
  match paragraph_raises env text with
  | Some e => raise e
  | None => ret (mkParagraph text style)
  end.

(** [doc.build(elements)]: writes the file named by the template, or raises,
    possibly leaving a partly written file. *)
Definition doc_build (env : Env) (doc : SimpleDocTemplate)
    (elements : list Table) : M unit :=
  fun w =>
    match build_raises env doc elements (fs w) with
    | None =>
        (Return tt,
         mkWorld (<[doc_filename doc := PdfFile doc elements]> (fs w)) (console w))
    | Some (e, partial) =>
        (Raise e,
         if partial
         then mkWorld (<[doc_filename doc := PartialFile]> (fs w)) (console w)
         else w)
    end.

Definition device_style : ParagraphStyle :=
  {| style_name := "DeviceName";
     style_parent := "Normal";
     fontSize := 12;
     alignment := 1;
     spaceBefore := 2;
     spaceAfter := 10 |}.

(** [item['device_name'] if item['device_name'] else "Onbekend device"] *)
Definition d_name (item : Item) : string :=
  if truthy (device_name item) then str (device_name item)
  else "Onbekend device".

(** The f-string [<b>{d_name}</b>]. *)
Definition bold (label : string) : string := "<b>" ++ label ++ "</b>".

(** One pass through the body of the [for] loop, on the loop's two
    variables [table_data] and [row]. *)
Definition loop_body (env : Env) (item : Item)
    (st : list (list Cell) * list Cell) : M (list (list Cell) * list Cell) :=
  let '(table_data, row) := st in
  let serial := serial item in
  let d_name := d_name item in
  img_path <- generate_temp_barcode env serial TEMP_IMG_DIR ;;
  let img := mkImage img_path (25 * mm) (50 * mm) in
  p_text <- Paragraph_new env (bold d_name) device_style ;;
  let cell_content : Cell := [FImage img; FParagraph p_text] in
  let row := row ++ [cell_content] in
  if Nat.eqb (length row) 2
  then ret (table_data ++ [row], [])
  else ret (table_data, row).

(** [for index, item in df.iterrows(): ...] *)
Fixpoint for_iterrows (env : Env) (items : list Item)
    (st : list (list Cell) * list Cell) : M (list (list Cell) * list Cell) :=
  match items with
  | [] => ret st
  | item :: rest =>
      st' <- loop_body env item st ;;
      for_iterrows env rest st'
  end.

(** [if row: row.append([]); table_data.append(row)] *)
Definition pad_last (st : list (list Cell) * list Cell) : list (list Cell) :=
  let '(table_data, row) := st in
  match row with
  | [] => table_data
  | _ :: _ => table_data ++ [row ++ [[]]]
  end.

(** Step 3 of [create_pdf]: the grid handed to [Table]. *)
Definition build_table_data (env : Env) (df : DataFrame) : M (list (list Cell)) :=
  st <- for_iterrows env (df_rows df) ([], []) ;;
  ret (pad_last st).

Definition grid_style : list StyleCmd :=
  [ ALIGN (0, 0)%Z (-1, -1)%Z "CENTER";
    VALIGN (0, 0)%Z (-1, -1)%Z "MIDDLE";
    GRID (0, 0)%Z (-1, -1)%Z (1 # 2) "grey";
    LEFTPADDING (0, 0)%Z (-1, -1)%Z 5;
    RIGHTPADDING (0, 0)%Z (-1, -1)%Z 5;
    TOPPADDING (0, 0)%Z (-1, -1)%Z 10;
    BOTTOMPADDING (0, 0)%Z (-1, -1)%Z 10 ].

(** [Table(table_data, colWidths=[col_width, col_width])] with its style. *)
Definition make_table (table_data : list (list Cell)) : Table :=
  let col_width := (90 * mm)%Q in
  mkTable table_data [col_width; col_width] grid_style.

Definition the_doc : SimpleDocTemplate :=
  {| doc_filename := PDF_FILENAME;
     pagesize := "A4";
     rightMargin := 10 * mm;
     leftMargin := 10 * mm;
     topMargin := 10 * mm;
     bottomMargin := 10 * mm |}.

Definition create_pdf (env : Env) (df : DataFrame) : M unit :=
  print (MsgPdfInfo PDF_FILENAME) ;;
  let doc := the_doc in
  os_makedirs TEMP_IMG_DIR ;;
  table_data <- build_table_data env df ;;
  let t := make_table table_data in
  let elements := [t] in
  try_except_Exception
    (doc_build env doc elements ;;
     print (MsgPdfSuccess (os_path_abspath env PDF_FILENAME)))
    (fun e => print (MsgPdfError (str_exc e))).

(** ** Entry point *)

Definition main (env : Env) : M unit :=
  df <- get_data_from_db env ;;
  print (MsgRecords (format_nat (df_len df))) ;;
  if negb (df_empty df)
  then create_pdf env df
  else print MsgNoData.

(** * Vocabulary of the properties *)

(** The path [generate_temp_barcode] returns for a record. *)
Definition image_path (item : Item) : string :=
  os_path_join TEMP_IMG_DIR (safe_sn (serial item)) ++ ".png".

(** The image file written for a record. *)
Definition image_file (item : Item) : File :=
  BarcodePng (str (serial item)) barcode_options.

(** The cell built for a record. *)
Definition cell_of (item : Item) : Cell :=
  [ FImage (mkImage (image_path item) (25 * mm) (50 * mm));
    FParagraph (mkParagraph (bold (d_name item)) device_style) ].

(** Neither library call of the loop body raises for this record. *)
Definition renders (env : Env) (item : Item) : Prop :=
  code128_raises env (str (serial item)) = None /\
  paragraph_raises env (bold (d_name item)) = None.

(** The effect of the loop on its two variables, given the cell of the
    current record. *)
Definition push_cell (st : list (list Cell) * list Cell) (c : Cell)
    : list (list Cell) * list Cell :=
  let '(table_data, row) := st in
  if Nat.eqb (length (row ++ [c])) 2
  then (table_data ++ [row ++ [c]], [])
  else (table_data, row ++ [c]).

(** The effect of the loop on the file system. *)
Definition write_images (items : list Item) (m : gmap string File)
    : gmap string File :=
  foldl (fun acc item => <[image_path item := image_file item]> acc) m items.

(** The cells of a grid in reading order, with the row under construction. *)
Definition flat (st : list (list Cell) * list Cell) : list Cell :=
  concat (fst st) ++ snd st.

Definition two_slots (r : list Cell) : Prop := length r = 2.

(** Loop invariant: closed rows have two slots, the open row fewer. *)
Definition grid_inv (st : list (list Cell) * list Cell) : Prop :=
  Forall two_slots (fst st) /\ length (snd st) < 2.

(** The last slot of a grid: the last cell of its last row. *)
Definition last_slot (grid : list (list Cell)) : option Cell :=
  last grid ≫= last.

(** Sample surroundings used to exercise the statements below. *)
Module Sample.

(** Libraries that never raise. *)
Definition quiet : Env :=
  {| cwd := "/srv/inventaris";
     sqlite_error := Exception "DatabaseError" "no such table: laptops";
     code128_raises := fun _ => None;
     paragraph_raises := fun _ => None;
     build_raises := fun _ _ _ => None |}.

Definition empty_world : World := mkWorld ∅ [].

(** A directory holding only a database with the given table. *)
Definition with_db (laptops : list LaptopRow) : World :=
  mkWorld {[ DB_FILE := SqliteDb (Some laptops) ]} [].

Definition frame (items : list Item) : DataFrame :=
  mkDataFrame ["serial"; "device_name"] items.

Definition three : list Item :=
  [ mkItem (Some "ABC123") (Some "Laptop A");
    mkItem (Some "XYZ789") None;
    mkItem (Some "QRS-456") (Some EmptyString) ].

End Sample.

(** The loop's two variables after the last record. *)
Definition loop_state (items : list Item) : list (list Cell) * list Cell :=
  foldl push_cell ([], []) (map cell_of items).

(** The grid the loop and the padding step build from a list of records. *)
Definition grid_of (items : list Item) : list (list Cell) :=
  pad_last (loop_state items).






(** A qualifying row, in the spec's words: the serial is present and is not
    the empty string. *)
Definition qualifies (r : LaptopRow) : bool :=
  match row_serial r with
  | Some s => negb (String.eqb s EmptyString)
  | None => false
  end.

(** The record read from a row. *)
Definition record_of (r : LaptopRow) : Item :=
  mkItem (row_serial r) (row_device_name r).

(** The scratch path is free or already a directory. *)
Definition scratch_available (m : gmap string File) : Prop :=
  m !! TEMP_IMG_DIR = None \/ m !! TEMP_IMG_DIR = Some Directory.

(** The file system when the write call is reached. *)
Definition fs_before_build (items : list Item) (m : gmap string File)
    : gmap string File :=
  write_images items (<[TEMP_IMG_DIR := Directory]> m).

(** Step 5 of [create_pdf]: the guarded write. *)
Definition guarded_build (env : Env) (grid : list (list Cell)) : M unit :=
  try_except_Exception
    (doc_build env the_doc [make_table grid] ;;
     print (MsgPdfSuccess (os_path_abspath env PDF_FILENAME)))
    (fun e => print (MsgPdfError (str_exc e))).

(** More sample surroundings. *)
Module Failing.

(** The write call fails: the disk is full and a stump is left behind. *)
Definition full_disk : Env :=
  {| cwd := "/srv/inventaris";
     sqlite_error := Exception "DatabaseError" "no such table: laptops";
     code128_raises := fun _ => None;
     paragraph_raises := fun _ => None;
     build_raises := fun _ _ _ =>
       Some (Exception "OSError" "[Errno 28] No space left on device", true) |}.

Fixpoint has_high_char (s : string) : bool :=
  match s with
  | EmptyString => false
  | String c r => (128 <=? N_of_ascii c)%N || has_high_char r
  end.

(** The encoder refuses payloads with a character above U+007F. *)
Definition ascii_only : Env :=
  {| cwd := "/srv/inventaris";
     sqlite_error := Exception "DatabaseError" "no such table: laptops";
     code128_raises := fun payload =>
       if has_high_char payload
       then Some (Exception "IllegalCharacterError" payload)
       else None;
     paragraph_raises := fun _ => None;
     build_raises := fun _ _ _ => None |}.

(** Three rows; the serial of the second starts with U+00E9. *)
Definition accented : list LaptopRow :=
  [ mkRow (Some "ABC123") (Some "Laptop A");
    mkRow (Some (String "233"%char "COLE7")) (Some "Laptop B");
    mkRow (Some "XYZ789") None ].

End Failing.

(** Two serials that agree except where both have a non-alphanumeric
    character. *)
Fixpoint differ_outside_alnum (s1 s2 : string) : Prop :=
  match s1, s2 with
  | EmptyString, EmptyString => True
  | String a r1, String b r2 =>
      (a = b \/ (isalnum a = false /\ isalnum b = false)) /\
      differ_outside_alnum r1 r2
  | _, _ => False
  end.

(** The file an image flowable refers to. *)
Definition cell_image (c : Cell) : option string :=
  match c with
  | FImage i :: _ => Some (img_filename i)
  | _ => None
  end.

(** Further sample surroundings. *)
Module Mishap.

(** The write call is interrupted from the keyboard. *)
Definition interrupted : Env :=
  {| cwd := "/srv/inventaris";
     sqlite_error := Exception "DatabaseError" "no such table: laptops";
     code128_raises := fun _ => None;
     paragraph_raises := fun _ => None;
     build_raises := fun _ _ _ =>
       Some (BaseException "KeyboardInterrupt" EmptyString, false) |}.

(** The paragraph parser rejects one unbalanced label. *)
Definition strict_markup : Env :=
  {| cwd := "/srv/inventaris";
     sqlite_error := Exception "DatabaseError" "no such table: laptops";
     code128_raises := fun _ => None;
     paragraph_raises := fun text =>
       if String.eqb text "<b>Lab <i>3</b>"
       then Some (Exception "ValueError" "paraparser: syntax error")
       else None;
     build_raises := fun _ _ _ => None |}.

(** A directory where the scratch name is taken by a plain file. *)
Definition scratch_taken (laptops : list LaptopRow) : World :=
  mkWorld (<[TEMP_IMG_DIR := OtherFile]>
             {[ DB_FILE := SqliteDb (Some laptops) ]}) [].

(** A directory whose database has no laptops table. *)
Definition no_table : World :=
  mkWorld {[ DB_FILE := SqliteDb None ]} [].

End Mishap.

(** A character the sanitiser may emit: alphanumeric, or the underscore. *)
Definition alnum_or_underscore (c : ascii) : bool :=
  isalnum c || Ascii.eqb c "_"%char.

(** Every character of a string passes a test. *)
Fixpoint string_forall (f : ascii -> bool) (s : string) : bool :=
  match s with
  | EmptyString => true
  | String c r => f c && string_forall f r
  end.

(** The paths a run of the assembler over these records may write. *)
Definition may_write (items : list Item) (p : string) : Prop :=
  p = TEMP_IMG_DIR \/ p = PDF_FILENAME \/ p ∈ map image_path items.


(** The records of the qualifying rows of a table, in table order. *)
Definition qualifying_records (laptops : list LaptopRow) : list Item :=
  map record_of (List.filter qualifies laptops).

(** * Properties *)

(** ** What one record contributes *)

Section Loop.

Variable env : Env.

Lemma generate_temp_barcode_ok (item : Item) (w : World) :
  code128_raises env (str (serial item)) = None ->
  generate_temp_barcode env (serial item) TEMP_IMG_DIR w =
    (Return (image_path item),
     mkWorld (<[image_path item := image_file item]> (fs w)) (console w)).
Proof.
  intros Hok.
  unfold generate_temp_barcode, code128_save, bind, ret.
  rewrite Hok. reflexivity.
Qed.

Lemma generate_temp_barcode_raises (s : option string) (outdir : string)
    (w : World) (e : PyExc) :
  code128_raises env (str s) = Some e ->
  generate_temp_barcode env s outdir w = (Raise e, w).
Proof.
  intros Hbad.
  unfold generate_temp_barcode, code128_save, bind.
  rewrite Hbad. reflexivity.
Qed.

Lemma loop_body_ok (item : Item) st (w : World) :
  renders env item ->
  loop_body env item st w =
    (Return (push_cell st (cell_of item)),
     mkWorld (<[image_path item := image_file item]> (fs w)) (console w)).
Proof.
  intros [Hcode Hpara]. destruct st as [table_data row].
  unfold loop_body, bind.
  rewrite (generate_temp_barcode_ok item w Hcode).
  unfold Paragraph_new. rewrite Hpara. unfold ret, push_cell, cell_of.
  destruct (Nat.eqb _ 2); reflexivity.
Qed.

Lemma loop_body_raises (item : Item) st (w : World) (e : PyExc) :
  code128_raises env (str (serial item)) = Some e ->
  loop_body env item st w = (Raise e, w).
Proof.
  intros Hbad. destruct st as [table_data row].
  unfold loop_body, bind.
  rewrite (generate_temp_barcode_raises _ _ w e Hbad). reflexivity.
Qed.

Lemma for_iterrows_ok (items : list Item) : forall st (w : World),
  Forall (renders env) items ->
  for_iterrows env items st w =
    (Return (foldl push_cell st (map cell_of items)),
     mkWorld (write_images items (fs w)) (console w)).
Proof.
  induction items as [|item rest IH]; intros st w Hall; simpl.
  - destruct w; reflexivity.
  - inversion Hall as [|? ? Hitem Hrest]; subst.
    unfold bind. rewrite (loop_body_ok item st w Hitem).
    rewrite (IH _ _ Hrest). reflexivity.
Qed.

Lemma for_iterrows_raises (pre post : list Item) (item : Item) (e : PyExc) :
  forall st (w : World),
  Forall (renders env) pre ->
  code128_raises env (str (serial item)) = Some e ->
  for_iterrows env (pre ++ item :: post) st w =
    (Raise e, mkWorld (write_images pre (fs w)) (console w)).
Proof.
  induction pre as [|p pre IH]; intros st w Hall Hbad; simpl.
  - unfold bind. rewrite (loop_body_raises item st w e Hbad).
    destruct w; reflexivity.
  - inversion Hall as [|? ? Hp Hpre]; subst.
    unfold bind. rewrite (loop_body_ok p st w Hp).
    rewrite (IH _ _ Hpre Hbad). reflexivity.
Qed.

End Loop.

(** ** The grid: shape and order *)

Section Grid.

Implicit Types (c : Cell) (row : list Cell) (grid : list (list Cell)).

Lemma flat_push_cell st c : flat (push_cell st c) = flat st ++ [c].
Proof.
  destruct st as [table_data row]. unfold push_cell, flat.
  destruct (Nat.eqb _ 2); simpl.
  - rewrite concat_app. simpl. rewrite !app_nil_r, <- !app_assoc. reflexivity.
  - rewrite <- !app_assoc. reflexivity.
Qed.

Lemma grid_inv_push_cell st c : grid_inv st -> grid_inv (push_cell st c).
Proof.
  destruct st as [table_data row]. unfold grid_inv, push_cell. simpl.
  intros [Hrows Hrow].
  destruct (Nat.eqb (length (row ++ [c])) 2) eqn:E; simpl.
  - apply Nat.eqb_eq in E. split; [|lia].
    apply Forall_app. split; [exact Hrows|].
    constructor; [exact E|constructor].
  - apply Nat.eqb_neq in E. split; [exact Hrows|].
    rewrite length_app in *. simpl in *. lia.
Qed.

Lemma foldl_push_cell_flat cells : forall st,
  flat (foldl push_cell st cells) = flat st ++ cells.
Proof.
  induction cells as [|c cells IH]; intros st; simpl.
  - rewrite app_nil_r. reflexivity.
  - rewrite IH, flat_push_cell, <- app_assoc. reflexivity.
Qed.

Lemma foldl_push_cell_inv cells : forall st,
  grid_inv st -> grid_inv (foldl push_cell st cells).
Proof.
  induction cells as [|c cells IH]; intros st Hinv; simpl.
  - exact Hinv.
  - apply IH, grid_inv_push_cell, Hinv.
Qed.

Lemma length_concat_two_slots grid :
  Forall two_slots grid -> length (concat grid) = 2 * length grid.
Proof.
  induction 1 as [|r grid Hr _ IH]; simpl.
  - reflexivity.
  - rewrite length_app, IH. unfold two_slots in Hr. lia.
Qed.

(** In a grid of two-slot rows, the cell number [i] in reading order
    sits in row [i / 2], column [i mod 2]. *)
Lemma lookup_concat_two_slots grid : forall i,
  Forall two_slots grid ->
  concat grid !! i = grid !! (i / 2) ≫= (fun r => r !! (i mod 2)).
Proof.
  induction grid as [|r grid IH]; intros i Hall.
  - reflexivity.
  - inversion Hall as [|? ? Hr Hrest]; subst.
    destruct r as [|a [|b [|? ?]]]; try discriminate Hr.
    destruct i as [|[|j]]; try reflexivity.
    change (concat ([a; b] :: grid) !! S (S j)) with (concat grid !! j).
    rewrite (IH j Hrest).
    replace (S (S j)) with (j + 1 * 2) by lia.
    rewrite Nat.div_add, Nat.Div0.mod_add by lia.
    replace (j / 2 + 1) with (S (j / 2)) by lia. reflexivity.
Qed.

Lemma pad_last_two_slots st : grid_inv st -> Forall two_slots (pad_last st).
Proof.
  destruct st as [table_data row]. unfold grid_inv, pad_last. simpl.
  intros [Hrows Hrow]. destruct row as [|c row]; [exact Hrows|].
  apply Forall_app. split; [exact Hrows|].
  constructor; [|constructor].
  unfold two_slots. rewrite length_app. simpl in *. lia.
Qed.

Lemma concat_pad_last st :
  concat (pad_last st) =
    flat st ++ (if Nat.eqb (length (snd st)) 0 then [] else [[]]).
Proof.
  destruct st as [table_data row]. unfold pad_last, flat. simpl.
  destruct row as [|c row]; simpl.
  - rewrite !app_nil_r. reflexivity.
  - rewrite concat_app. simpl. rewrite app_nil_r, <- app_assoc. reflexivity.
Qed.

Lemma length_flat st :
  grid_inv st -> length (flat st) = 2 * length (fst st) + length (snd st).
Proof.
  intros [Hrows _]. unfold flat.
  rewrite length_app, (length_concat_two_slots _ Hrows). reflexivity.
Qed.

Lemma length_pad_last st :
  grid_inv st -> length (pad_last st) = (length (flat st) + 1) / 2.
Proof.
  intros Hinv. rewrite (length_flat _ Hinv).
  destruct Hinv as [_ Hrow]. destruct st as [table_data row].
  unfold pad_last. cbn [fst snd] in *.
  destruct row as [|c [|? ?]]; cbn [length] in *; [ | | lia].
  - apply (Nat.div_unique _ 2 _ 1); lia.
  - rewrite length_app. cbn [length].
    apply (Nat.div_unique _ 2 _ 0); lia.
Qed.

End Grid.

Lemma cell_of_nonempty (item : Item) : cell_of item <> [].
Proof. discriminate. Qed.

Lemma last_slot_pad_last st (items : list Item) :
  grid_inv st ->
  flat st = map cell_of items ->
  last_slot (pad_last st) = Some [] <-> length (snd st) = 1.
Proof.
  destruct st as [table_data row]. unfold grid_inv, flat, last_slot, pad_last.
  cbn [fst snd]. intros [Hrows Hrow] Hflat.
  destruct row as [|c [|? ?]]; cbn [length] in *; [ | | lia].
  - split; [|discriminate].
    intros Hlast. exfalso.
    destruct (last table_data) as [r|] eqn:Er; [|discriminate].
    cbn in Hlast.
    apply last_Some in Er as [grid' ->].
    apply last_Some in Hlast as [r' ->].
    assert (Hin : [] ∈ map cell_of items).
    { rewrite <- Hflat, app_nil_r, concat_app. cbn.
      rewrite app_nil_r. set_solver. }
    apply list_elem_of_fmap in Hin as [item [Hitem _]].
    exact (cell_of_nonempty item (eq_sym Hitem)).
  - split; [reflexivity|]. intros _.
    rewrite last_snoc. reflexivity.
Qed.

Lemma build_table_data_ok (env : Env) (df : DataFrame) (w : World) :
  Forall (renders env) (df_rows df) ->
  build_table_data env df w =
    (Return (grid_of (df_rows df)),
     mkWorld (write_images (df_rows df) (fs w)) (console w)).
Proof.
  intros Hall. unfold build_table_data, bind.
  rewrite (for_iterrows_ok env _ _ w Hall). reflexivity.
Qed.

Lemma build_table_data_raises (env : Env) (df : DataFrame) (w : World)
    (pre post : list Item) (item : Item) (e : PyExc) :
  df_rows df = pre ++ item :: post ->
  Forall (renders env) pre ->
  code128_raises env (str (serial item)) = Some e ->
  build_table_data env df w =
    (Raise e, mkWorld (write_images pre (fs w)) (console w)).
Proof.
  intros Hrows Hpre Hbad. unfold build_table_data, bind.
  rewrite Hrows, (for_iterrows_raises env pre post item e _ w Hpre Hbad).
  reflexivity.
Qed.

Section GridOf.

Variable items : list Item.

Lemma grid_of_inv : grid_inv (loop_state items).
Proof. apply foldl_push_cell_inv. split; [constructor|simpl; lia]. Qed.

Lemma grid_of_flat : flat (loop_state items) = map cell_of items.
Proof. unfold loop_state. rewrite foldl_push_cell_flat. reflexivity. Qed.

Lemma grid_of_two_slots : Forall two_slots (grid_of items).
Proof. apply pad_last_two_slots, grid_of_inv. Qed.

Lemma length_grid_of : length (grid_of items) = (length items + 1) / 2.
Proof.
  unfold grid_of.
  rewrite (length_pad_last _ grid_of_inv), grid_of_flat, length_map.
  reflexivity.
Qed.

Lemma last_slot_grid_of :
  last_slot (grid_of items) = Some [] <-> Nat.Odd (length items).
Proof.
  unfold grid_of.
  rewrite (last_slot_pad_last _ items grid_of_inv grid_of_flat).
  pose proof (length_flat _ grid_of_inv) as Hlen.
  rewrite grid_of_flat, length_map in Hlen.
  destruct grid_of_inv as [_ Hrow].
  split.
  - intros E. exists (length (fst (loop_state items))). lia.
  - intros [k Hk]. lia.
Qed.

Lemma lookup_grid_of (i : nat) (item : Item) :
  items !! i = Some item ->
  grid_of items !! (i / 2) ≫= (fun row => row !! (i mod 2))
    = Some (cell_of item).
Proof.
  intros Hi.
  rewrite <- (lookup_concat_two_slots _ i grid_of_two_slots).
  unfold grid_of.
  rewrite concat_pad_last, grid_of_flat, lookup_app_l.
  - rewrite list_lookup_fmap, Hi. reflexivity.
  - rewrite length_map. apply lookup_lt_Some in Hi. exact Hi.
Qed.

End GridOf.

(** C1: for N records whose library calls succeed, the grid handed to the
    table has ceil(N/2) rows of exactly two slots, its last slot is the
    empty cell exactly when N is odd, and record number [i] (in the order of
    the data frame) occupies row [i / 2], column [i mod 2]. *)
Theorem grid_rows_pairs_in_order (env : Env) (df : DataFrame) (w : World) :
  Forall (renders env) (df_rows df) ->
  exists grid w',
    build_table_data env df w = (Return grid, w') /\
    length grid = (df_len df + 1) / 2 /\
    Forall two_slots grid /\
    (last_slot grid = Some [] <-> Nat.Odd (df_len df)) /\
    forall i item,
      df_rows df !! i = Some item ->
      grid !! (i / 2) ≫= (fun row => row !! (i mod 2)) = Some (cell_of item).
Proof.
  intros Hall. eexists _, _. split; [apply (build_table_data_ok env df w Hall)|].
  split; [apply length_grid_of|].
  split; [apply grid_of_two_slots|].
  split; [apply last_slot_grid_of|].
  apply lookup_grid_of.
Qed.

Lemma grid_rows_pairs_in_order_witness :
  Forall (renders Sample.quiet) Sample.three /\
  exists grid w',
    build_table_data Sample.quiet (Sample.frame Sample.three) Sample.empty_world
      = (Return grid, w') /\
    length grid = (3 + 1) / 2 /\
    Forall two_slots grid /\
    (last_slot grid = Some [] <-> Nat.Odd 3) /\
    forall i item,
      Sample.three !! i = Some item ->
      grid !! (i / 2) ≫= (fun row => row !! (i mod 2)) = Some (cell_of item).
Proof.
  assert (H : Forall (renders Sample.quiet) Sample.three).
  { repeat constructor. }
  split; [exact H|].
  exact (grid_rows_pairs_in_order Sample.quiet (Sample.frame Sample.three)
           Sample.empty_world H).
Defined.

(** ** Labels *)






(** ** Image files *)


Section WriteImages.

Implicit Types (items : list Item) (m : gmap string File) (p : string).

Lemma write_images_lookup_notin items : forall m p,
  p ∉ map image_path items ->
  write_images items m !! p = m !! p.
Proof.
  induction items as [|item rest IH]; intros m p Hnotin; [reflexivity|].
  cbn in *. apply not_elem_of_cons in Hnotin as [Hne Hrest].
  unfold write_images in IH. rewrite (IH _ _ Hrest).
  apply lookup_insert_ne. congruence.
Qed.

(** A path written by the loop holds the image of the last record
    written there. *)
Lemma write_images_lookup_in items : forall m p,
  p ∈ map image_path items ->
  exists item, item ∈ items /\ image_path item = p /\
               write_images items m !! p = Some (image_file item).
Proof.
  induction items as [|item rest IH]; intros m p Hin.
  - inversion Hin.
  - destruct (decide (p ∈ map image_path rest)) as [Hrest|Hrest].
    + destruct (IH (<[image_path item := image_file item]> m) p Hrest)
        as [it [Hit [Hpath Hlook]]].
      exists it. split; [right; exact Hit|]. split; [exact Hpath|exact Hlook].
    + cbn in Hin. apply elem_of_cons in Hin as [-> | Hin]; [|contradiction].
      exists item. split; [left|]. split; [reflexivity|].
      cbn. fold (write_images rest (<[image_path item := image_file item]> m)).
      rewrite (write_images_lookup_notin rest _ _ Hrest).
      apply lookup_insert_eq.
Qed.


End WriteImages.



(** ** File names *)

Section FileNames.

Local Open Scope string_scope.



Lemma startswith_slash_inv (c : ascii) (s : string) :
  startswith_slash (String c s) = true -> c = "/"%char.
Proof.
  destruct c as [[] [] [] [] [] [] [] []]; cbn; intros H;
    solve [discriminate H | reflexivity].
Qed.

Lemma safe_char_not_slash (c : ascii) : safe_char c <> "/"%char.
Proof.
  unfold safe_char. destruct (isalnum c) eqn:E; [|discriminate].
  intros ->. discriminate E.
Qed.

Lemma safe_sn_not_absolute (s : option string) :
  startswith_slash (safe_sn s) = false.
Proof.
  unfold safe_sn. destruct (str s) as [|c r]; [reflexivity|].
  cbn [join_map].
  destruct (startswith_slash (String (safe_char c) (join_map safe_char r))) eqn:E;
    [|reflexivity].
  apply startswith_slash_inv in E. destruct (safe_char_not_slash c E).
Qed.

(** The image of a record lies in the scratch directory, under the
    sanitised serial and the writer's extension. *)
Lemma image_path_eq (item : Item) :
  image_path item = "temp_barcodes/" ++ safe_sn (serial item) ++ ".png".
Proof.
  unfold image_path, os_path_join.
  rewrite safe_sn_not_absolute. reflexivity.
Qed.

Lemma list_ascii_of_string_app (s t : string) :
  list_ascii_of_string (s ++ t) =
    (list_ascii_of_string s ++ list_ascii_of_string t)%list.
Proof.
  induction s as [|c s IH]; [reflexivity|].
  simpl. f_equal. exact IH.
Qed.

Lemma string_app_inv_tail (s1 s2 t : string) : s1 ++ t = s2 ++ t -> s1 = s2.
Proof.
  intros E. apply (f_equal list_ascii_of_string) in E.
  rewrite !list_ascii_of_string_app in E. apply app_inv_tail in E.
  rewrite <- (string_of_list_ascii_of_string s1),
          <- (string_of_list_ascii_of_string s2), E.
  reflexivity.
Qed.

Lemma image_path_inj (a b : Item) :
  image_path a = image_path b <-> safe_sn (serial a) = safe_sn (serial b).
Proof.
  rewrite !image_path_eq. split.
  - intros E. apply String.app_inj in E.
    apply string_app_inv_tail in E. exact E.
  - intros ->. reflexivity.
Qed.


End FileNames.




(** ** The loader *)

Section Loader.

Variable env : Env.

Lemma keeps_qualifies (r : LaptopRow) : Sql.keeps r = qualifies r.
Proof.
  unfold Sql.keeps, Sql.where_clause, qualifies.
  destruct (row_serial r) as [s|]; [|reflexivity].
  cbn. destruct (String.eqb s EmptyString); reflexivity.
Qed.

Lemma query_filter (laptops : list LaptopRow) :
  Sql.query laptops = map record_of (List.filter qualifies laptops).
Proof.
  induction laptops as [|r rest IH]; [reflexivity|].
  cbn. rewrite keeps_qualifies. destruct (qualifies r); cbn; rewrite IH;
    reflexivity.
Qed.

Lemma qualifies_spec (r : LaptopRow) :
  qualifies r = true <->
  exists s, row_serial r = Some s /\ s <> EmptyString.
Proof.
  unfold qualifies. destruct (row_serial r) as [s|].
  - rewrite negb_true_iff, String.eqb_neq. split.
    + intros Hne. exists s. split; [reflexivity|exact Hne].
    + intros [s' [[= <-] Hne]]. exact Hne.
  - split; [discriminate|]. intros [s [Hs _]]. discriminate Hs.
Qed.

Lemma get_data_from_db_missing (w : World) :
  fs w !! DB_FILE = None ->
  get_data_from_db env w =
    (Return DataFrame_new,
     mkWorld (fs w) (console w ++ [MsgDbNotFound DB_FILE])).
Proof.
  intros Hnone. unfold get_data_from_db, bind, os_path_exists.
  rewrite Hnone. reflexivity.
Qed.

Lemma get_data_from_db_present (w : World) (laptops : list LaptopRow) :
  fs w !! DB_FILE = Some (SqliteDb (Some laptops)) ->
  get_data_from_db env w =
    (Return (mkDataFrame ["serial"; "device_name"] (Sql.query laptops)), w).
Proof.
  intros Hdb. unfold get_data_from_db, bind, os_path_exists, read_sql_query.
  rewrite Hdb. cbn. rewrite Hdb. reflexivity.
Qed.

(** Whatever the loader returns, it left the files alone, printed at most
    the not-found line, and its frame is empty exactly when it has no
    rows. *)
Lemma get_data_from_db_returns (w w1 : World) (df : DataFrame) :
  get_data_from_db env w = (Return df, w1) ->
  fs w1 = fs w /\
  (console w1 = console w \/
   console w1 = console w ++ [MsgDbNotFound DB_FILE]) /\
  df_empty df = Nat.eqb (df_len df) 0.
Proof.
  unfold get_data_from_db, bind, os_path_exists, read_sql_query, ret, print.
  destruct (fs w !! DB_FILE) as [f|] eqn:Hdb; cbn.
  - rewrite Hdb. destruct f as [|[laptops|]| | | |]; intros [= <- <-].
    split; [reflexivity|]. split; [left; reflexivity|]. reflexivity.
  - intros [= <- <-]. cbn. split; [reflexivity|].
    split; [right; reflexivity|]. reflexivity.
Qed.

End Loader.

(** ** What the assembler prints *)

Section Console.

Variable env : Env.

Lemma os_makedirs_console (d : string) (w w' : World) (r : Result unit) :
  os_makedirs d w = (r, w') -> console w' = console w.
Proof.
  unfold os_makedirs.
  destruct (fs w !! d) as [[| | | | |]|]; intros [= <- <-]; reflexivity.
Qed.

Lemma loop_body_console (item : Item) st (w w' : World) r :
  loop_body env item st w = (r, w') -> console w' = console w.
Proof.
  destruct st as [table_data row].
  unfold loop_body, bind, generate_temp_barcode, code128_save, bind, raise,
    ret, Paragraph_new.
  destruct (code128_raises env (str (serial item))); cbn;
    [intros [= <- <-]; reflexivity|].
  destruct (paragraph_raises env (bold (d_name item))); cbn;
    [intros [= <- <-]; reflexivity|].
  destruct (Nat.eqb _ 2); intros [= <- <-]; reflexivity.
Qed.

Lemma for_iterrows_console (items : list Item) : forall st (w w' : World) r,
  for_iterrows env items st w = (r, w') -> console w' = console w.
Proof.
  induction items as [|item rest IH]; intros st w w' r; cbn.
  - intros [= <- <-]. reflexivity.
  - unfold bind. destruct (loop_body env item st w) as [[st'|e] w1] eqn:E.
    + intros Hrest. rewrite (IH _ _ _ _ Hrest).
      apply (loop_body_console _ _ _ _ _ E).
    + intros [= <- <-]. apply (loop_body_console _ _ _ _ _ E).
Qed.

Lemma build_table_data_console (df : DataFrame) (w w' : World) r :
  build_table_data env df w = (r, w') -> console w' = console w.
Proof.
  unfold build_table_data, bind.
  destruct (for_iterrows env (df_rows df) ([], []) w) as [[st|e] w1] eqn:E;
    intros [= <- <-]; apply (for_iterrows_console _ _ _ _ _ E).
Qed.

Lemma doc_build_console (doc : SimpleDocTemplate) (elements : list Table)
    (w w' : World) r :
  doc_build env doc elements w = (r, w') -> console w' = console w.
Proof.
  unfold doc_build.
  destruct (build_raises env doc elements (fs w)) as [[e [|]]|];
    intros [= <- <-]; reflexivity.
Qed.

(** Every run of [create_pdf], however it ends, first announces the
    document. *)
Lemma create_pdf_console (df : DataFrame) (w w' : World) r :
  create_pdf env df w = (r, w') ->
  exists out, console w' = console w ++ MsgPdfInfo PDF_FILENAME :: out.
Proof.
  unfold create_pdf, bind. cbn [print].
  set (w0 := mkWorld (fs w) (console w ++ [MsgPdfInfo PDF_FILENAME])).
  assert (H0 : forall out,
             console w0 ++ out = console w ++ MsgPdfInfo PDF_FILENAME :: out).
  { intros out. cbn. rewrite <- app_assoc. reflexivity. }
  destruct (os_makedirs TEMP_IMG_DIR w0) as [[[]|e] w1] eqn:E1.
  2:{ intros [= <- <-]. exists [].
      rewrite (os_makedirs_console _ _ _ _ E1), <- H0, app_nil_r. reflexivity. }
  apply os_makedirs_console in E1.
  destruct (build_table_data env df w1) as [[grid|e] w2] eqn:E2.
  2:{ intros [= <- <-]. exists [].
      rewrite (build_table_data_console _ _ _ _ E2), E1, <- H0, app_nil_r.
      reflexivity. }
  apply build_table_data_console in E2.
  unfold try_except_Exception, bind.
  destruct (doc_build env the_doc [make_table grid] w2) as [[[]|e] w3] eqn:E3.
  - apply doc_build_console in E3. cbn. intros [= <- <-]. cbn.
    exists [MsgPdfSuccess (os_path_abspath env PDF_FILENAME)].
    rewrite E3, E2, E1. apply H0.
  - apply doc_build_console in E3.
    destruct (isinstance_Exception e); cbn; intros [= <- <-]; cbn.
    + exists [MsgPdfError (str_exc e)]. rewrite E3, E2, E1. apply H0.
    + exists []. rewrite E3, E2, E1, <- H0, app_nil_r. reflexivity.
Qed.

End Console.

(** ** The entry point on an empty data set *)

Lemma main_no_records (env : Env) (w w1 : World) (df : DataFrame) :
  get_data_from_db env w = (Return df, w1) ->
  df_len df = 0 ->
  main env w =
    (Return tt, mkWorld (fs w) (console w1 ++ [MsgRecords "0"; MsgNoData])).
Proof.
  intros Hload Hzero.
  destruct (get_data_from_db_returns env w w1 df Hload) as [Hfs [_ Hempty]].
  unfold main, bind. rewrite Hload. cbn [print].
  rewrite Hempty, Hzero. cbn. unfold print. cbn.
  rewrite Hfs, <- app_assoc. reflexivity.
Qed.

(** C4: when the loader returns no records, the program prints the record
    count 0 and the no-data line, returns normally, leaves every file as it
    was (no document, no scratch directory), and prints no line of the
    assembler: [create_pdf], whose first act is to announce the document,
    does not run. *)
Theorem no_records_no_document (env : Env) (w w1 : World) (df : DataFrame) :
  get_data_from_db env w = (Return df, w1) ->
  df_len df = 0 ->
  exists w' out,
    main env w = (Return tt, w') /\
    fs w' = fs w /\
    console w' = console w1 ++ [MsgRecords "0"; MsgNoData] /\
    console w' = console w ++ out /\
    MsgPdfInfo PDF_FILENAME ∉ out.
Proof.
  intros Hload Hzero.
  destruct (get_data_from_db_returns env w w1 df Hload) as [_ [Hcon _]].
  destruct Hcon as [Hcon|Hcon].
  - exists (mkWorld (fs w) (console w1 ++ [MsgRecords "0"; MsgNoData])),
      [MsgRecords "0"; MsgNoData].
    split; [apply (main_no_records env w w1 df Hload Hzero)|].
    split; [reflexivity|]. split; [reflexivity|].
    split; [cbn; rewrite Hcon; reflexivity|].
    intros Hin. repeat (apply elem_of_cons in Hin as [Hin|Hin]; [discriminate Hin|]).
    inversion Hin.
  - exists (mkWorld (fs w) (console w1 ++ [MsgRecords "0"; MsgNoData])),
      [MsgDbNotFound DB_FILE; MsgRecords "0"; MsgNoData].
    split; [apply (main_no_records env w w1 df Hload Hzero)|].
    split; [reflexivity|]. split; [reflexivity|].
    split; [cbn; rewrite Hcon, <- app_assoc; reflexivity|].
    intros Hin. repeat (apply elem_of_cons in Hin as [Hin|Hin]; [discriminate Hin|]).
    inversion Hin.
Qed.

Lemma no_records_no_document_witness :
  let w := Sample.with_db [mkRow None (Some "Laptop A");
                           mkRow (Some EmptyString) None] in
  get_data_from_db Sample.quiet w = (Return (Sample.frame []), w) /\
  df_len (Sample.frame []) = 0 /\
  exists w' out,
    main Sample.quiet w = (Return tt, w') /\
    fs w' = fs w /\
    console w' = console w ++ [MsgRecords "0"; MsgNoData] /\
    console w' = console w ++ out /\
    MsgPdfInfo PDF_FILENAME ∉ out.
Proof.
  intros w.
  assert (H : get_data_from_db Sample.quiet w = (Return (Sample.frame []), w)).
  { apply (get_data_from_db_present Sample.quiet w
             [mkRow None (Some "Laptop A"); mkRow (Some EmptyString) None]).
    apply lookup_singleton_eq. }
  split; [exact H|]. split; [reflexivity|].
  exact (no_records_no_document Sample.quiet w w (Sample.frame []) H eq_refl).
Defined.

(** C5: when no file exists at the database path, the loader prints the
    not-found line and returns the empty frame without raising; the program
    then prints the count 0 and the no-data line and returns normally with
    every file as it was. *)
Theorem missing_database_is_empty_dataset (env : Env) (w : World) :
  fs w !! DB_FILE = None ->
  get_data_from_db env w =
    (Return DataFrame_new,
     mkWorld (fs w) (console w ++ [MsgDbNotFound DB_FILE])) /\
  df_len DataFrame_new = 0 /\
  main env w =
    (Return tt,
     mkWorld (fs w)
       (console w ++ [MsgDbNotFound DB_FILE; MsgRecords "0"; MsgNoData])).
Proof.
  intros Hnone.
  pose proof (get_data_from_db_missing env w Hnone) as Hload.
  split; [exact Hload|]. split; [reflexivity|].
  rewrite (main_no_records env w _ _ Hload eq_refl). cbn.
  rewrite <- app_assoc. reflexivity.
Qed.

Lemma missing_database_is_empty_dataset_witness :
  fs Sample.empty_world !! DB_FILE = None /\
  get_data_from_db Sample.quiet Sample.empty_world =
    (Return DataFrame_new, mkWorld ∅ [MsgDbNotFound DB_FILE]) /\
  df_len DataFrame_new = 0 /\
  main Sample.quiet Sample.empty_world =
    (Return tt,
     mkWorld ∅ [MsgDbNotFound DB_FILE; MsgRecords "0"; MsgNoData]).
Proof.
  split; [apply lookup_empty|].
  exact (missing_database_is_empty_dataset Sample.quiet Sample.empty_world
           (lookup_empty _)).
Defined.

(** C6: when the database file exists and holds the table, the loader
    returns, without touching the world, the records of exactly the rows
    whose serial is present and not the empty string, in the order of the
    table scan; every returned record has a present, non-empty serial. *)
Theorem loader_returns_qualifying_rows (env : Env) (w : World)
    (laptops : list LaptopRow) :
  fs w !! DB_FILE = Some (SqliteDb (Some laptops)) ->
  exists df,
    get_data_from_db env w = (Return df, w) /\
    df_rows df = map record_of (List.filter qualifies laptops) /\
    (forall r, qualifies r = true <->
               exists s, row_serial r = Some s /\ s <> EmptyString) /\
    Forall (fun item => exists s, serial item = Some s /\ s <> EmptyString)
           (df_rows df).
Proof.
  intros Hdb. eexists. split; [apply (get_data_from_db_present env w _ Hdb)|].
  cbn [df_rows]. split; [apply query_filter|].
  split; [apply qualifies_spec|].
  rewrite query_filter. apply Forall_forall. intros item Hin.
  apply list_elem_of_fmap in Hin as [r [-> Hr]].
  apply list_elem_of_In, filter_In in Hr as [_ Hq].
  apply qualifies_spec in Hq. exact Hq.
Qed.

Lemma loader_returns_qualifying_rows_witness :
  let laptops := [ mkRow (Some "ABC123") (Some "Laptop A");
                   mkRow None (Some "Laptop B");
                   mkRow (Some EmptyString) (Some "Laptop C");
                   mkRow (Some "XYZ789") None ] in
  fs (Sample.with_db laptops) !! DB_FILE = Some (SqliteDb (Some laptops)) /\
  exists df,
    get_data_from_db Sample.quiet (Sample.with_db laptops)
      = (Return df, Sample.with_db laptops) /\
    df_rows df = map record_of (List.filter qualifies laptops) /\
    (forall r, qualifies r = true <->
               exists s, row_serial r = Some s /\ s <> EmptyString) /\
    Forall (fun item => exists s, serial item = Some s /\ s <> EmptyString)
           (df_rows df).
Proof.
  intros laptops.
  assert (H : fs (Sample.with_db laptops) !! DB_FILE
              = Some (SqliteDb (Some laptops))) by apply lookup_singleton_eq.
  split; [exact H|].
  exact (loader_returns_qualifying_rows Sample.quiet _ laptops H).
Defined.

(** ** The assembler up to the write call *)

Section Assembler.

Variable env : Env.

Lemma os_makedirs_ok (w : World) :
  scratch_available (fs w) ->
  os_makedirs TEMP_IMG_DIR w =
    (Return tt, mkWorld (<[TEMP_IMG_DIR := Directory]> (fs w)) (console w)).
Proof.
  unfold os_makedirs. intros [H|H]; rewrite H; [reflexivity|].
  rewrite (insert_id _ _ _ H). destruct w; reflexivity.
Qed.

Lemma create_pdf_reaches_build (df : DataFrame) (w : World) :
  scratch_available (fs w) ->
  Forall (renders env) (df_rows df) ->
  create_pdf env df w =
    guarded_build env (grid_of (df_rows df))
      (mkWorld (fs_before_build (df_rows df) (fs w))
               (console w ++ [MsgPdfInfo PDF_FILENAME])).
Proof.
  intros Hdir Hall. unfold create_pdf, bind at 1 2 3. cbn [print].
  rewrite os_makedirs_ok by exact Hdir.
  rewrite (build_table_data_ok env df _ Hall). reflexivity.
Qed.

Lemma create_pdf_encode_failure (df : DataFrame) (w : World)
    (pre post : list Item) (item : Item) (e : PyExc) :
  scratch_available (fs w) ->
  df_rows df = pre ++ item :: post ->
  Forall (renders env) pre ->
  code128_raises env (str (serial item)) = Some e ->
  create_pdf env df w =
    (Raise e,
     mkWorld (fs_before_build pre (fs w))
             (console w ++ [MsgPdfInfo PDF_FILENAME])).
Proof.
  intros Hdir Hrows Hpre Hbad. unfold create_pdf, bind at 1 2 3. cbn [print].
  rewrite os_makedirs_ok by exact Hdir.
  rewrite (build_table_data_raises env df _ pre post item e Hrows Hpre Hbad).
  reflexivity.
Qed.

Lemma guarded_build_success (grid : list (list Cell)) (w : World) :
  build_raises env the_doc [make_table grid] (fs w) = None ->
  guarded_build env grid w =
    (Return tt,
     mkWorld (<[PDF_FILENAME := PdfFile the_doc [make_table grid]]> (fs w))
             (console w ++ [MsgPdfSuccess (os_path_abspath env PDF_FILENAME)])).
Proof.
  intros Hok. unfold guarded_build, try_except_Exception, bind, doc_build.
  rewrite Hok. reflexivity.
Qed.

Lemma guarded_build_caught (grid : list (list Cell)) (w : World)
    (e : PyExc) (partial : bool) :
  build_raises env the_doc [make_table grid] (fs w) = Some (e, partial) ->
  isinstance_Exception e = true ->
  guarded_build env grid w =
    (Return tt,
     mkWorld (if partial then <[PDF_FILENAME := PartialFile]> (fs w) else fs w)
             (console w ++ [MsgPdfError (str_exc e)])).
Proof.
  intros Hfail Hexc. unfold guarded_build, try_except_Exception, bind, doc_build.
  rewrite Hfail, Hexc. destruct partial; reflexivity.
Qed.

(** An exception outside the [Exception] hierarchy is not a failure the
    handler names: it passes through. *)
Lemma guarded_build_passes_base_exception (grid : list (list Cell))
    (w : World) (e : PyExc) (partial : bool) :
  build_raises env the_doc [make_table grid] (fs w) = Some (e, partial) ->
  isinstance_Exception e = false ->
  guarded_build env grid w =
    (Raise e,
     if partial
     then mkWorld (<[PDF_FILENAME := PartialFile]> (fs w)) (console w)
     else w).
Proof.
  intros Hfail Hexc. unfold guarded_build, try_except_Exception, bind, doc_build.
  rewrite Hfail, Hexc. reflexivity.
Qed.

Lemma main_runs_create_pdf (w w1 : World) (df : DataFrame) :
  get_data_from_db env w = (Return df, w1) ->
  df_len df <> 0 ->
  main env w =
    create_pdf env df
      (mkWorld (fs w)
               (console w1 ++ [MsgRecords (format_nat (df_len df))])).
Proof.
  intros Hload Hsome.
  destruct (get_data_from_db_returns env w w1 df Hload) as [Hfs [_ Hempty]].
  unfold main, bind. rewrite Hload. cbn [print].
  rewrite Hempty. apply Nat.eqb_neq in Hsome. rewrite Hsome. cbn [negb].
  rewrite Hfs. reflexivity.
Qed.

Lemma pdf_not_an_image (items : list Item) :
  PDF_FILENAME ∉ map image_path items.
Proof.
  intros Hin. apply list_elem_of_fmap in Hin as [item [E _]].
  rewrite image_path_eq in E. discriminate E.
Qed.

Lemma fs_before_build_pdf (items : list Item) (m : gmap string File) :
  fs_before_build items m !! PDF_FILENAME = m !! PDF_FILENAME.
Proof.
  unfold fs_before_build.
  rewrite (write_images_lookup_notin _ _ _ (pdf_not_an_image items)).
  apply lookup_insert_ne. discriminate.
Qed.

End Assembler.

(** ** Failures *)

(** C7: when the run reaches the write call and that call fails with an
    exception [e], the handler around it catches [e], prints the error line
    carrying [str(e)], and nothing is raised further: [main] returns
    normally.  No success line is printed; the output file is untouched or
    a stump, as the library left it. *)
Theorem write_failure_is_caught (env : Env) (w w1 : World) (df : DataFrame)
    (e : PyExc) (partial : bool) :
  get_data_from_db env w = (Return df, w1) ->
  df_len df <> 0 ->
  scratch_available (fs w) ->
  Forall (renders env) (df_rows df) ->
  build_raises env the_doc [make_table (grid_of (df_rows df))]
    (fs_before_build (df_rows df) (fs w)) = Some (e, partial) ->
  isinstance_Exception e = true ->
  main env w =
    (Return tt,
     mkWorld
       (if partial
        then <[PDF_FILENAME := PartialFile]> (fs_before_build (df_rows df) (fs w))
        else fs_before_build (df_rows df) (fs w))
       (console w1 ++ [MsgRecords (format_nat (df_len df));
                       MsgPdfInfo PDF_FILENAME;
                       MsgPdfError (str_exc e)])).
Proof.
  intros Hload Hsome Hdir Hall Hfail Hexc.
  rewrite (main_runs_create_pdf env w w1 df Hload Hsome).
  rewrite (create_pdf_reaches_build env df (mkWorld (fs w) _) Hdir Hall).
  rewrite (guarded_build_caught env _ (mkWorld (fs_before_build _ _) _)
             e partial Hfail Hexc).
  cbn [fs console]. rewrite <- !app_assoc. reflexivity.
Qed.

Lemma write_failure_is_caught_witness :
  let w := Sample.with_db [mkRow (Some "ABC123") (Some "Laptop A")] in
  let items := [mkItem (Some "ABC123") (Some "Laptop A")] in
  isinstance_Exception
    (Exception "OSError" "[Errno 28] No space left on device") = true /\
  main Failing.full_disk w =
    (Return tt,
     mkWorld
       (<[PDF_FILENAME := PartialFile]> (fs_before_build items (fs w)))
       [MsgRecords "1"; MsgPdfInfo PDF_FILENAME;
        MsgPdfError "[Errno 28] No space left on device"]).
Proof.
  intros w items. split; [reflexivity|].
  apply (write_failure_is_caught Failing.full_disk w w (Sample.frame items)
           (Exception "OSError" "[Errno 28] No space left on device") true).
  - apply (get_data_from_db_present Failing.full_disk w
             [mkRow (Some "ABC123") (Some "Laptop A")]).
    apply lookup_singleton_eq.
  - discriminate.
  - left. apply lookup_singleton_ne. discriminate.
  - repeat constructor.
  - reflexivity.
  - reflexivity.
Defined.

(** C8: when encoding fails with [e] for a record (the records before it
    having been processed), the generator raises [e], the loop raises [e]
    at that record, and so does the whole program: nothing catches it.  The
    run stops there: the later records are not processed, no line is printed
    after the announcement, and no document is written. *)
Theorem encode_failure_aborts_run (env : Env) (w w1 : World) (df : DataFrame)
    (pre post : list Item) (item : Item) (e : PyExc) :
  get_data_from_db env w = (Return df, w1) ->
  scratch_available (fs w) ->
  df_rows df = pre ++ item :: post ->
  Forall (renders env) pre ->
  code128_raises env (str (serial item)) = Some e ->
  (forall outdir w0,
     generate_temp_barcode env (serial item) outdir w0 = (Raise e, w0)) /\
  (forall st w0,
     for_iterrows env (df_rows df) st w0 =
       (Raise e, mkWorld (write_images pre (fs w0)) (console w0))) /\
  exists w',
    main env w = (Raise e, w') /\
    fs w' = fs_before_build pre (fs w) /\
    console w' = console w1 ++ [MsgRecords (format_nat (df_len df));
                                MsgPdfInfo PDF_FILENAME] /\
    fs w' !! PDF_FILENAME = fs w !! PDF_FILENAME.
Proof.
  intros Hload Hdir Hrows Hpre Hbad.
  split; [intros outdir w0; apply generate_temp_barcode_raises, Hbad|].
  split.
  { intros st w0. rewrite Hrows.
    apply (for_iterrows_raises env pre post item e st w0 Hpre Hbad). }
  assert (Hsome : df_len df <> 0).
  { unfold df_len. rewrite Hrows, length_app. cbn. lia. }
  eexists. split.
  - rewrite (main_runs_create_pdf env w w1 df Hload Hsome).
    apply (create_pdf_encode_failure env df (mkWorld (fs w) _) pre post item e
             Hdir Hrows Hpre Hbad).
  - cbn [fs console]. split; [reflexivity|].
    split; [rewrite <- app_assoc; reflexivity|].
    apply fs_before_build_pdf.
Qed.

Lemma encode_failure_aborts_run_witness :
  let w := Sample.with_db Failing.accented in
  let bad := String "233"%char "COLE7" in
  let e := Exception "IllegalCharacterError" bad in
  code128_raises Failing.ascii_only bad = Some e /\
  exists w',
    main Failing.ascii_only w = (Raise e, w') /\
    fs w' = fs_before_build [mkItem (Some "ABC123") (Some "Laptop A")] (fs w) /\
    console w' = [MsgRecords "3"; MsgPdfInfo PDF_FILENAME] /\
    fs w' !! PDF_FILENAME = None.
Proof.
  intros w bad e. split; [reflexivity|].
  assert (Hload : get_data_from_db Failing.ascii_only w =
                    (Return (Sample.frame (Sql.query Failing.accented)), w)).
  { apply (get_data_from_db_present Failing.ascii_only w Failing.accented).
    apply lookup_singleton_eq. }
  assert (Hdir : scratch_available (fs w)).
  { left. apply lookup_singleton_ne. discriminate. }
  destruct (encode_failure_aborts_run Failing.ascii_only w w
              (Sample.frame (Sql.query Failing.accented))
              [mkItem (Some "ABC123") (Some "Laptop A")]
              [mkItem (Some "XYZ789") None]
              (mkItem (Some bad) (Some "Laptop B")) e
              Hload Hdir eq_refl
              ltac:(repeat constructor) eq_refl)
    as [_ [_ [w' [Hmain [Hfs [Hcon Hpdf]]]]]].
  exists w'. split; [exact Hmain|]. split; [exact Hfs|].
  split; [rewrite Hcon; reflexivity|].
  rewrite Hpdf. apply lookup_singleton_ne. discriminate.
Defined.

(** ** Constants *)



(** ** Colliding file names *)

Lemma differ_outside_alnum_safe (s1 : string) : forall s2,
  differ_outside_alnum s1 s2 ->
  join_map safe_char s1 = join_map safe_char s2.
Proof.
  induction s1 as [|a r1 IH]; intros [|b r2]; cbn; try contradiction.
  - reflexivity.
  - intros [Hab Hrest]. rewrite (IH r2 Hrest). f_equal.
    unfold safe_char. destruct Hab as [->|[-> ->]]; reflexivity.
Qed.

(** C10: the sanitisation is not injective.  There are distinct serials with
    one sanitised name ("A-1" and "A.1"); and for any two records whose
    serials are distinct but agree outside their non-alphanumeric
    characters, the generator returns one path for both, so that after the
    loop both cells refer to that one file and the file holds the image of
    the later record. *)
Theorem sanitised_names_collide :
  (exists s1 s2, s1 <> s2 /\ differ_outside_alnum s1 s2) /\
  forall (env : Env) (w : World) (it1 it2 : Item) (s1 s2 : string),
    serial it1 = Some s1 ->
    serial it2 = Some s2 ->
    s1 <> s2 ->
    differ_outside_alnum s1 s2 ->
    renders env it1 ->
    renders env it2 ->
    (forall outdir w1 w2, exists p w1' w2',
       generate_temp_barcode env (Some s1) outdir w1 = (Return p, w1') /\
       generate_temp_barcode env (Some s2) outdir w2 = (Return p, w2')) /\
    exists p w',
      build_table_data env (mkDataFrame ["serial"; "device_name"] [it1; it2]) w
        = (Return [[cell_of it1; cell_of it2]], w') /\
      cell_image (cell_of it1) = Some p /\
      cell_image (cell_of it2) = Some p /\
      fs w' !! p = Some (BarcodePng s2 barcode_options) /\
      fs w' !! p <> Some (BarcodePng s1 barcode_options).
Proof.
  split.
  { exists "A-1", "A.1". split; [discriminate|].
    cbn. repeat split; auto. }
  intros env w it1 it2 s1 s2 Hs1 Hs2 Hne Hdiff Hr1 Hr2.
  pose proof (differ_outside_alnum_safe s1 s2 Hdiff) as Hsafe.
  assert (Hpath : image_path it1 = image_path it2).
  { apply image_path_inj. unfold safe_sn. rewrite Hs1, Hs2. exact Hsafe. }
  split.
  - intros outdir w1 w2.
    destruct Hr1 as [Hc1 _], Hr2 as [Hc2 _]. rewrite Hs1 in Hc1. rewrite Hs2 in Hc2.
    cbn [str] in Hc1, Hc2.
    unfold generate_temp_barcode, code128_save, bind, ret, safe_sn. cbn [str].
    rewrite Hc1, Hc2, Hsafe. eexists _, _, _. split; reflexivity.
  - exists (image_path it1), (mkWorld (write_images [it1; it2] (fs w)) (console w)).
    split.
    { apply (build_table_data_ok env
               (mkDataFrame ["serial"; "device_name"] [it1; it2]) w).
      cbn [df_rows]. constructor; [exact Hr1|].
      constructor; [exact Hr2|]. constructor. }
    split; [reflexivity|]. split; [cbn; rewrite Hpath; reflexivity|].
    assert (Hlook : write_images [it1; it2] (fs w) !! image_path it1
                    = Some (BarcodePng s2 barcode_options)).
    { cbn. rewrite Hpath, lookup_insert_eq. unfold image_file.
      rewrite Hs2. reflexivity. }
    cbn [fs]. rewrite Hlook. split; [reflexivity|].
    intros [= E]. exact (Hne (eq_sym E)).
Qed.

Lemma sanitised_names_collide_witness :
  let it1 := mkItem (Some "A-1") (Some "Laptop A") in
  let it2 := mkItem (Some "A.1") (Some "Laptop B") in
  "A-1" <> "A.1" /\
  differ_outside_alnum "A-1" "A.1" /\
  exists p w',
    build_table_data Sample.quiet (Sample.frame [it1; it2]) Sample.empty_world
      = (Return [[cell_of it1; cell_of it2]], w') /\
    cell_image (cell_of it1) = Some p /\
    cell_image (cell_of it2) = Some p /\
    fs w' !! p = Some (BarcodePng "A.1" barcode_options) /\
    fs w' !! p <> Some (BarcodePng "A-1" barcode_options).
Proof.
  intros it1 it2.
  assert (Hne : "A-1" <> "A.1") by discriminate.
  assert (Hd : differ_outside_alnum "A-1" "A.1").
  { cbn. repeat split; auto. }
  split; [exact Hne|]. split; [exact Hd|].
  destruct sanitised_names_collide as [_ H].
  destruct (H Sample.quiet Sample.empty_world it1 it2 "A-1" "A.1"
              eq_refl eq_refl Hne Hd
              (conj eq_refl eq_refl) (conj eq_refl eq_refl)) as [_ Hrun].
  exact Hrun.
Defined.

(** * Further properties of the program *)

(** ** Errors that nothing catches *)

Section Uncaught.

Variable env : Env.

Lemma get_data_from_db_unusable (w : World) (f : File) :
  fs w !! DB_FILE = Some f ->
  (forall laptops, f <> SqliteDb (Some laptops)) ->
  get_data_from_db env w = (Raise (sqlite_error env), w).
Proof.
  intros Hf Hbad. unfold get_data_from_db, bind, os_path_exists, read_sql_query.
  rewrite Hf. cbn. rewrite Hf.
  destruct f as [|[laptops|]| | | |]; try reflexivity.
  destruct (Hbad laptops eq_refl).
Qed.

Lemma loop_body_markup_raises (item : Item) st (w : World) (e : PyExc) :
  code128_raises env (str (serial item)) = None ->
  paragraph_raises env (bold (d_name item)) = Some e ->
  loop_body env item st w =
    (Raise e,
     mkWorld (<[image_path item := image_file item]> (fs w)) (console w)).
Proof.
  intros Hcode Hpara. destruct st as [table_data row].
  unfold loop_body, bind.
  rewrite (generate_temp_barcode_ok env item w Hcode).
  unfold Paragraph_new. rewrite Hpara. reflexivity.
Qed.

Lemma write_images_snoc (items : list Item) (item : Item)
    (m : gmap string File) :
  write_images (items ++ [item]) m =
    <[image_path item := image_file item]> (write_images items m).
Proof. unfold write_images. rewrite foldl_app. reflexivity. Qed.

Lemma for_iterrows_markup_raises (pre post : list Item) (item : Item)
    (e : PyExc) : forall st (w : World),
  Forall (renders env) pre ->
  code128_raises env (str (serial item)) = None ->
  paragraph_raises env (bold (d_name item)) = Some e ->
  for_iterrows env (pre ++ item :: post) st w =
    (Raise e, mkWorld (write_images (pre ++ [item]) (fs w)) (console w)).
Proof.
  induction pre as [|p pre IH]; intros st w Hall Hcode Hpara; simpl.
  - unfold bind. rewrite (loop_body_markup_raises item st w e Hcode Hpara).
    reflexivity.
  - inversion Hall as [|? ? Hp Hpre]; subst.
    unfold bind. rewrite (loop_body_ok env p st w Hp).
    rewrite (IH _ _ Hpre Hcode Hpara). reflexivity.
Qed.

End Uncaught.

(** X1: a file at the database path that cannot be queried (not a database,
    or one without the laptops table) makes the loader raise the library's
    error; [main] raises it too, before printing anything and without
    touching a file. *)
Theorem unusable_database_aborts (env : Env) (w : World) (f : File) :
  fs w !! DB_FILE = Some f ->
  (forall laptops, f <> SqliteDb (Some laptops)) ->
  get_data_from_db env w = (Raise (sqlite_error env), w) /\
  main env w = (Raise (sqlite_error env), w).
Proof.
  intros Hf Hbad.
  pose proof (get_data_from_db_unusable env w f Hf Hbad) as Hload.
  split; [exact Hload|].
  unfold main, bind. rewrite Hload. reflexivity.
Qed.

Lemma unusable_database_aborts_witness :
  get_data_from_db Sample.quiet Mishap.no_table =
    (Raise (Exception "DatabaseError" "no such table: laptops"),
     Mishap.no_table) /\
  main Sample.quiet Mishap.no_table =
    (Raise (Exception "DatabaseError" "no such table: laptops"),
     Mishap.no_table).
Proof.
  apply (unusable_database_aborts Sample.quiet Mishap.no_table (SqliteDb None)).
  - apply lookup_singleton_eq.
  - intros laptops. discriminate.
Defined.

(** X2: when the scratch name is taken by something that is not a
    directory, creating the scratch directory raises an error that nothing
    catches: [main] raises after the record count and the announcement, and
    no file is written. *)
Theorem occupied_scratch_path_aborts (env : Env) (w w1 : World)
    (df : DataFrame) (f : File) :
  get_data_from_db env w = (Return df, w1) ->
  df_len df <> 0 ->
  fs w !! TEMP_IMG_DIR = Some f ->
  f <> Directory ->
  exists e,
    isinstance_Exception e = true /\
    main env w =
      (Raise e,
       mkWorld (fs w)
         (console w1 ++ [MsgRecords (format_nat (df_len df));
                         MsgPdfInfo PDF_FILENAME])).
Proof.
  intros Hload Hsome Hf Hnotdir.
  exists (Exception "FileExistsError" TEMP_IMG_DIR). split; [reflexivity|].
  rewrite (main_runs_create_pdf env w w1 df Hload Hsome).
  unfold create_pdf, bind at 1 2. cbn [print]. unfold os_makedirs. cbn [fs].
  rewrite Hf.
  destruct f; [destruct (Hnotdir eq_refl)|..];
    cbn [console]; rewrite <- app_assoc; reflexivity.
Qed.

Lemma occupied_scratch_path_aborts_witness :
  let w := Mishap.scratch_taken [mkRow (Some "ABC123") (Some "Laptop A")] in
  exists e,
    isinstance_Exception e = true /\
    main Sample.quiet w =
      (Raise e, mkWorld (fs w) [MsgRecords "1"; MsgPdfInfo PDF_FILENAME]).
Proof.
  intros w.
  apply (occupied_scratch_path_aborts Sample.quiet w w
           (Sample.frame [mkItem (Some "ABC123") (Some "Laptop A")]) OtherFile).
  - apply (get_data_from_db_present Sample.quiet w
             [mkRow (Some "ABC123") (Some "Laptop A")]).
    reflexivity.
  - discriminate.
  - reflexivity.
  - discriminate.
Defined.

(** X3: when the paragraph of a record is rejected (its image having been
    encoded), the error is raised out of the loop and out of [main]; the
    image of that record is already on disk, the later records are not
    processed and no document is written. *)
Theorem markup_failure_aborts_after_image (env : Env) (w w1 : World)
    (df : DataFrame) (pre post : list Item) (item : Item) (e : PyExc) :
  get_data_from_db env w = (Return df, w1) ->
  scratch_available (fs w) ->
  df_rows df = pre ++ item :: post ->
  Forall (renders env) pre ->
  code128_raises env (str (serial item)) = None ->
  paragraph_raises env (bold (d_name item)) = Some e ->
  exists w',
    main env w = (Raise e, w') /\
    fs w' = fs_before_build (pre ++ [item]) (fs w) /\
    fs w' !! image_path item = Some (image_file item) /\
    fs w' !! PDF_FILENAME = fs w !! PDF_FILENAME /\
    console w' = console w1 ++ [MsgRecords (format_nat (df_len df));
                                MsgPdfInfo PDF_FILENAME].
Proof.
  intros Hload Hdir Hrows Hpre Hcode Hpara.
  assert (Hsome : df_len df <> 0).
  { unfold df_len. rewrite Hrows, length_app. cbn. lia. }
  eexists. split.
  - rewrite (main_runs_create_pdf env w w1 df Hload Hsome).
    unfold create_pdf, bind at 1 2 3. cbn [print].
    rewrite (os_makedirs_ok (mkWorld (fs w) _) Hdir).
    unfold build_table_data, bind. rewrite Hrows.
    rewrite (for_iterrows_markup_raises env pre post item e _ _ Hpre Hcode Hpara).
    reflexivity.
  - cbn [fs console]. split; [reflexivity|]. split; [|split].
    + rewrite write_images_snoc. apply lookup_insert_eq.
    + apply fs_before_build_pdf.
    + rewrite <- app_assoc. reflexivity.
Qed.

Lemma markup_failure_aborts_after_image_witness :
  let laptops := [ mkRow (Some "ABC123") (Some "Laptop A");
                   mkRow (Some "LAB-3") (Some "Lab <i>3");
                   mkRow (Some "XYZ789") None ] in
  let w := Sample.with_db laptops in
  let e := Exception "ValueError" "paraparser: syntax error" in
  exists w',
    main Mishap.strict_markup w = (Raise e, w') /\
    fs w' !! "temp_barcodes/ABC123.png"
      = Some (BarcodePng "ABC123" barcode_options) /\
    fs w' !! "temp_barcodes/LAB_3.png"
      = Some (BarcodePng "LAB-3" barcode_options) /\
    fs w' !! "temp_barcodes/XYZ789.png" = None /\
    fs w' !! PDF_FILENAME = None.
Proof.
  intros laptops w e.
  destruct (markup_failure_aborts_after_image Mishap.strict_markup w w
              (Sample.frame (Sql.query laptops))
              [mkItem (Some "ABC123") (Some "Laptop A")]
              [mkItem (Some "XYZ789") None]
              (mkItem (Some "LAB-3") (Some "Lab <i>3")) e)
    as [w' [Hmain [Hfs _]]].
  - apply (get_data_from_db_present Mishap.strict_markup w laptops).
    apply lookup_singleton_eq.
  - left. apply lookup_singleton_ne. discriminate.
  - reflexivity.
  - repeat constructor.
  - reflexivity.
  - reflexivity.
  - exists w'. split; [exact Hmain|]. rewrite Hfs.
    vm_compute. repeat split.
Defined.

(** ** The run as a whole *)

Lemma main_success (env : Env) (w w1 : World) (df : DataFrame) :
  get_data_from_db env w = (Return df, w1) ->
  df_len df <> 0 ->
  scratch_available (fs w) ->
  Forall (renders env) (df_rows df) ->
  build_raises env the_doc [make_table (grid_of (df_rows df))]
    (fs_before_build (df_rows df) (fs w)) = None ->
  main env w =
    (Return tt,
     mkWorld
       (<[PDF_FILENAME := PdfFile the_doc [make_table (grid_of (df_rows df))]]>
          (fs_before_build (df_rows df) (fs w)))
       (console w1 ++ [MsgRecords (format_nat (df_len df));
                       MsgPdfInfo PDF_FILENAME;
                       MsgPdfSuccess (os_path_abspath env PDF_FILENAME)])).
Proof.
  intros Hload Hsome Hdir Hall Hok.
  rewrite (main_runs_create_pdf env w w1 df Hload Hsome).
  rewrite (create_pdf_reaches_build env df (mkWorld (fs w) _) Hdir Hall).
  rewrite (guarded_build_success env _ (mkWorld (fs_before_build _ _) _) Hok).
  cbn [fs console]. rewrite <- !app_assoc. reflexivity.
Qed.

Lemma grid_of_nonempty (items : list Item) : items <> [] -> grid_of items <> [].
Proof.
  intros Hne Hgrid. apply (f_equal (@length _)) in Hgrid.
  rewrite length_grid_of in Hgrid. destruct items as [|a items]; [congruence|].
  cbn [length] in Hgrid.
  assert (1 <= (S (length items) + 1) / 2).
  { apply (Nat.div_le_lower_bound _ 2 1); lia. }
  cbn [length] in *. lia.
Qed.

(** X4: a run in which nothing fails.  From a database with at least one
    qualifying row, [main] returns normally having printed the number of
    qualifying rows, the announcement and the success line, in this order;
    the file system then holds the scratch directory, the images of the
    records and one document whose single table carries the grid of the
    qualifying records, which has at least one row. *)
Theorem successful_run (env : Env) (w : World) (laptops : list LaptopRow) :
  fs w !! DB_FILE = Some (SqliteDb (Some laptops)) ->
  qualifying_records laptops <> [] ->
  scratch_available (fs w) ->
  Forall (renders env) (qualifying_records laptops) ->
  build_raises env the_doc [make_table (grid_of (qualifying_records laptops))]
    (fs_before_build (qualifying_records laptops) (fs w)) = None ->
  main env w =
    (Return tt,
     mkWorld
       (<[PDF_FILENAME :=
            PdfFile the_doc [make_table (grid_of (qualifying_records laptops))]]>
          (fs_before_build (qualifying_records laptops) (fs w)))
       (console w ++
          [MsgRecords (format_nat (length (qualifying_records laptops)));
           MsgPdfInfo PDF_FILENAME;
           MsgPdfSuccess (os_path_abspath env PDF_FILENAME)])) /\
  grid_of (qualifying_records laptops) <> [].
Proof.
  intros Hdb Hne Hdir Hall Hok.
  split; [|apply grid_of_nonempty, Hne].
  pose proof (get_data_from_db_present env w laptops Hdb) as Hload.
  rewrite (query_filter laptops) in Hload. fold (qualifying_records laptops) in Hload.
  apply (main_success env w w _ Hload); cbn [df_rows df_len]; try assumption.
  unfold df_len. cbn [df_rows].
  destruct (qualifying_records laptops); [congruence|discriminate].
Qed.

Lemma successful_run_witness :
  let laptops := [ mkRow (Some "ABC123") (Some "Laptop A");
                   mkRow None (Some "Laptop B");
                   mkRow (Some "XYZ789") None ] in
  let items := [ mkItem (Some "ABC123") (Some "Laptop A");
                 mkItem (Some "XYZ789") None ] in
  main Sample.quiet (Sample.with_db laptops) =
    (Return tt,
     mkWorld
       (<[PDF_FILENAME := PdfFile the_doc [make_table (grid_of items)]]>
          (fs_before_build items (fs (Sample.with_db laptops))))
       [MsgRecords "2"; MsgPdfInfo PDF_FILENAME;
        MsgPdfSuccess "/srv/inventaris/inventaris_barcodes.pdf"]) /\
  grid_of items <> [].
Proof.
  intros laptops items.
  apply (successful_run Sample.quiet (Sample.with_db laptops) laptops).
  - apply lookup_singleton_eq.
  - discriminate.
  - left. apply lookup_singleton_ne. discriminate.
  - repeat constructor.
  - reflexivity.
Defined.

(** X5: the handler around the write call names [Exception] only.  When the
    write call raises an exception outside that hierarchy (an interrupt, an
    exit request), the handler lets it pass: [main] raises it, and neither
    the error line nor the success line is printed. *)
Theorem interrupt_passes_the_handler (env : Env) (w w1 : World)
    (df : DataFrame) (e : PyExc) (partial : bool) :
  get_data_from_db env w = (Return df, w1) ->
  df_len df <> 0 ->
  scratch_available (fs w) ->
  Forall (renders env) (df_rows df) ->
  build_raises env the_doc [make_table (grid_of (df_rows df))]
    (fs_before_build (df_rows df) (fs w)) = Some (e, partial) ->
  isinstance_Exception e = false ->
  main env w =
    (Raise e,
     mkWorld
       (if partial
        then <[PDF_FILENAME := PartialFile]> (fs_before_build (df_rows df) (fs w))
        else fs_before_build (df_rows df) (fs w))
       (console w1 ++ [MsgRecords (format_nat (df_len df));
                       MsgPdfInfo PDF_FILENAME])).
Proof.
  intros Hload Hsome Hdir Hall Hfail Hexc.
  rewrite (main_runs_create_pdf env w w1 df Hload Hsome).
  rewrite (create_pdf_reaches_build env df (mkWorld (fs w) _) Hdir Hall).
  rewrite (guarded_build_passes_base_exception env _
             (mkWorld (fs_before_build _ _) _) e partial Hfail Hexc).
  cbn [fs console]. rewrite <- !app_assoc. destruct partial; reflexivity.
Qed.

Lemma interrupt_passes_the_handler_witness :
  let w := Sample.with_db [mkRow (Some "ABC123") (Some "Laptop A")] in
  let items := [mkItem (Some "ABC123") (Some "Laptop A")] in
  main Mishap.interrupted w =
    (Raise (BaseException "KeyboardInterrupt" EmptyString),
     mkWorld (fs_before_build items (fs w))
             [MsgRecords "1"; MsgPdfInfo PDF_FILENAME]).
Proof.
  intros w items.
  apply (interrupt_passes_the_handler Mishap.interrupted w w
           (Sample.frame items)
           (BaseException "KeyboardInterrupt" EmptyString) false).
  - apply (get_data_from_db_present Mishap.interrupted w
             [mkRow (Some "ABC123") (Some "Laptop A")]).
    apply lookup_singleton_eq.
  - discriminate.
  - left. apply lookup_singleton_ne. discriminate.
  - repeat constructor.
  - reflexivity.
  - reflexivity.
Defined.

(** ** What a run leaves alone *)

Section Frame.

Variable env : Env.

Lemma os_makedirs_frame (d p : string) (w w' : World) (r : Result unit) :
  os_makedirs d w = (r, w') -> p <> d -> fs w' !! p = fs w !! p.
Proof.
  unfold os_makedirs.
  destruct (fs w !! d) as [[| | | | |]|]; intros [= <- <-] Hne; try reflexivity.
  cbn. apply lookup_insert_ne. congruence.
Qed.

Lemma loop_body_frame (item : Item) st (w w' : World) r (p : string) :
  loop_body env item st w = (r, w') ->
  p <> image_path item ->
  fs w' !! p = fs w !! p.
Proof.
  destruct st as [table_data row].
  unfold loop_body, bind, generate_temp_barcode, code128_save, bind, raise,
    ret, Paragraph_new.
  destruct (code128_raises env (str (serial item))); cbn;
    [intros [= <- <-]; reflexivity|].
  fold (image_path item).
  destruct (paragraph_raises env (bold (d_name item))); cbn.
  - intros [= <- <-] Hne. cbn. apply lookup_insert_ne. congruence.
  - destruct (Nat.eqb _ 2); intros [= <- <-] Hne; cbn;
      apply lookup_insert_ne; congruence.
Qed.

Lemma for_iterrows_frame (items : list Item) (p : string) :
  forall st (w w' : World) r,
  for_iterrows env items st w = (r, w') ->
  p ∉ map image_path items ->
  fs w' !! p = fs w !! p.
Proof.
  induction items as [|item rest IH]; intros st w w' r; cbn.
  - intros [= <- <-] _. reflexivity.
  - intros Hrun Hnotin. apply not_elem_of_cons in Hnotin as [Hne Hrest].
    unfold bind in Hrun.
    destruct (loop_body env item st w) as [[st'|e] w1] eqn:E.
    + rewrite (IH _ _ _ _ Hrun Hrest). apply (loop_body_frame _ _ _ _ _ _ E Hne).
    + injection Hrun as <- <-. apply (loop_body_frame _ _ _ _ _ _ E Hne).
Qed.

Lemma build_table_data_frame (df : DataFrame) (w w' : World) r (p : string) :
  build_table_data env df w = (r, w') ->
  p ∉ map image_path (df_rows df) ->
  fs w' !! p = fs w !! p.
Proof.
  unfold build_table_data, bind.
  destruct (for_iterrows env (df_rows df) ([], []) w) as [[st|e] w1] eqn:E;
    intros [= <- <-] Hnotin; apply (for_iterrows_frame _ _ _ _ _ _ E Hnotin).
Qed.

Lemma doc_build_frame (doc : SimpleDocTemplate) (elements : list Table)
    (w w' : World) r (p : string) :
  doc_build env doc elements w = (r, w') ->
  p <> doc_filename doc ->
  fs w' !! p = fs w !! p.
Proof.
  unfold doc_build.
  destruct (build_raises env doc elements (fs w)) as [[e [|]]|];
    intros [= <- <-] Hne; try reflexivity;
    cbn; apply lookup_insert_ne; congruence.
Qed.

Lemma create_pdf_frame (df : DataFrame) (w w' : World) r (p : string) :
  create_pdf env df w = (r, w') ->
  ~ may_write (df_rows df) p ->
  fs w' !! p = fs w !! p.
Proof.
  intros Hrun Hfree.
  assert (Hdir : p <> TEMP_IMG_DIR) by (intros E; apply Hfree; left; exact E).
  assert (Hpdf : p <> PDF_FILENAME)
    by (intros E; apply Hfree; right; left; exact E).
  assert (Himg : p ∉ map image_path (df_rows df))
    by (intros E; apply Hfree; right; right; exact E).
  revert Hrun. unfold create_pdf, bind. cbn [print].
  set (w0 := mkWorld (fs w) (console w ++ [MsgPdfInfo PDF_FILENAME])).
  destruct (os_makedirs TEMP_IMG_DIR w0) as [[[]|e] w1] eqn:E1.
  2:{ intros [= <- <-]. apply (os_makedirs_frame _ _ _ _ _ E1 Hdir). }
  apply (fun H => os_makedirs_frame _ p _ _ _ H Hdir) in E1. cbn [fs w0] in E1.
  destruct (build_table_data env df w1) as [[grid|e] w2] eqn:E2.
  2:{ intros [= <- <-].
      rewrite (build_table_data_frame _ _ _ _ _ E2 Himg). exact E1. }
  apply (fun H => build_table_data_frame _ _ _ _ p H Himg) in E2.
  unfold try_except_Exception, bind.
  destruct (doc_build env the_doc [make_table grid] w2) as [[[]|e] w3] eqn:E3;
    apply (fun H => doc_build_frame the_doc _ _ _ _ p H Hpdf) in E3.
  - cbn. intros [= <- <-]. cbn. rewrite E3, E2. exact E1.
  - destruct (isinstance_Exception e); cbn; intros [= <- <-]; cbn;
      rewrite E3, E2; exact E1.
Qed.

Lemma get_data_from_db_frame (w w' : World) r :
  get_data_from_db env w = (r, w') -> fs w' = fs w.
Proof.
  unfold get_data_from_db, bind, os_path_exists, read_sql_query, ret, print.
  destruct (fs w !! DB_FILE) as [f|] eqn:Hdb; cbn.
  - rewrite Hdb. destruct f as [|[laptops|]| | | |]; intros [= <- <-]; reflexivity.
  - intros [= <- <-]. reflexivity.
Qed.

Lemma prefix_app (s t : string) : String.prefix s (s ++ t)%string = true.
Proof.
  induction s as [|a s IH]; [destruct t; reflexivity|].
  simpl. destruct (ascii_dec a a) as [_|Hne]; [exact IH|destruct (Hne eq_refl)].
Qed.

Lemma main_frame (w w' : World) r (p : string) :
  main env w = (r, w') ->
  p <> TEMP_IMG_DIR ->
  p <> PDF_FILENAME ->
  String.prefix "temp_barcodes/" p = false ->
  fs w' !! p = fs w !! p.
Proof.
  intros Hrun Hdir Hpdf Hout. revert Hrun. unfold main, bind.
  destruct (get_data_from_db env w) as [[df|e] w1] eqn:E1.
  2:{ intros [= <- <-]. rewrite (get_data_from_db_frame _ _ _ E1). reflexivity. }
  apply get_data_from_db_frame in E1. cbn [print].
  destruct (negb (df_empty df)).
  - intros Hrun. apply create_pdf_frame with (p := p) in Hrun.
    + rewrite Hrun. cbn. rewrite E1. reflexivity.
    + intros [E|[E|Hin]]; [exact (Hdir E)|exact (Hpdf E)|].
      apply list_elem_of_fmap in Hin as [item [-> _]].
      rewrite image_path_eq, prefix_app in Hout. discriminate Hout.
  - unfold print. cbn. intros [= <- <-]. cbn. rewrite E1. reflexivity.
Qed.

End Frame.

(** X6: whatever the libraries do and however the run ends, [main] changes
    nothing outside the scratch directory except the document: every path
    other than the scratch directory, the document and the paths under
    temp_barcodes/ holds afterwards what it held before.  In particular the
    database file is never modified. *)
Theorem run_touches_only_its_outputs (env : Env) (w : World) :
  (forall p,
     p <> TEMP_IMG_DIR ->
     p <> PDF_FILENAME ->
     String.prefix "temp_barcodes/" p = false ->
     fs (snd (main env w)) !! p = fs w !! p) /\
  fs (snd (main env w)) !! DB_FILE = fs w !! DB_FILE.
Proof.
  assert (H : forall p,
     p <> TEMP_IMG_DIR -> p <> PDF_FILENAME ->
     String.prefix "temp_barcodes/" p = false ->
     fs (snd (main env w)) !! p = fs w !! p).
  { intros p Hdir Hpdf Hout.
    apply (main_frame env w (snd (main env w)) (fst (main env w)) p);
      [apply surjective_pairing|assumption..]. }
  split; [exact H|].
  apply H; [discriminate|discriminate|reflexivity].
Qed.

Lemma run_touches_only_its_outputs_witness :
  let w := Sample.with_db [mkRow (Some "ABC123") (Some "Laptop A")] in
  fs (snd (main Failing.full_disk w)) !! DB_FILE = fs w !! DB_FILE /\
  fs (snd (main Sample.quiet w)) !! "notes.txt" = fs w !! "notes.txt".
Proof.
  intros w. split.
  - apply (run_touches_only_its_outputs Failing.full_disk w).
  - apply (run_touches_only_its_outputs Sample.quiet w);
      [discriminate|discriminate|reflexivity].
Defined.

(** ** The sanitiser *)

Section Sanitiser.

Local Open Scope string_scope.

Lemma underscore_not_alnum : isalnum "_"%char = false.
Proof. reflexivity. Qed.

Lemma safe_char_charset (c : ascii) : alnum_or_underscore (safe_char c) = true.
Proof.
  unfold alnum_or_underscore, safe_char.
  destruct (isalnum c) eqn:E; [rewrite E; reflexivity|reflexivity].
Qed.

Lemma safe_char_fixed (c : ascii) :
  safe_char c = c <-> alnum_or_underscore c = true.
Proof.
  unfold alnum_or_underscore, safe_char.
  destruct (isalnum c) eqn:E; cbn.
  - split; reflexivity.
  - rewrite Ascii.eqb_eq. split; intros H; symmetry; exact H.
Qed.

Lemma safe_char_idem (c : ascii) : safe_char (safe_char c) = safe_char c.
Proof. apply safe_char_fixed, safe_char_charset. Qed.

Lemma join_map_charset (s : string) :
  string_forall alnum_or_underscore (join_map safe_char s) = true.
Proof.
  induction s as [|c s IH]; [reflexivity|].
  cbn. rewrite safe_char_charset, IH. reflexivity.
Qed.

Lemma join_map_fixed (s : string) :
  join_map safe_char s = s <-> string_forall alnum_or_underscore s = true.
Proof.
  induction s as [|c s IH]; cbn; [split; reflexivity|].
  rewrite andb_true_iff, <- IH, <- safe_char_fixed. split.
  - intros [= Hc Hs]. split; assumption.
  - intros [-> ->]. reflexivity.
Qed.

Lemma string_forall_In (f : ascii -> bool) (s : string) (c : ascii) :
  string_forall f s = true -> In c (list_ascii_of_string s) -> f c = true.
Proof.
  induction s as [|a s IH]; cbn; [contradiction|].
  rewrite andb_true_iff. intros [Ha Hs] [<-|Hin]; [exact Ha|exact (IH Hs Hin)].
Qed.

Lemma safe_char_collide (a b : ascii) :
  safe_char a = safe_char b <->
  a = b \/ (isalnum a = false /\ isalnum b = false).
Proof.
  unfold safe_char. split.
  - destruct (isalnum a) eqn:Ea, (isalnum b) eqn:Eb; intros E.
    + left. exact E.
    + exfalso. subst a. rewrite underscore_not_alnum in Ea. discriminate Ea.
    + exfalso. subst b. rewrite underscore_not_alnum in Eb. discriminate Eb.
    + right. split; reflexivity.
  - intros [->|[-> ->]]; reflexivity.
Qed.

Lemma join_map_collide (s1 : string) : forall s2,
  join_map safe_char s1 = join_map safe_char s2 <-> differ_outside_alnum s1 s2.
Proof.
  induction s1 as [|a r1 IH]; intros [|b r2]; cbn.
  - split; reflexivity.
  - split; [discriminate|contradiction].
  - split; [discriminate|contradiction].
  - rewrite <- IH, <- safe_char_collide. split.
    + intros [= Hc Hs]. split; assumption.
    + intros [-> ->]. reflexivity.
Qed.

Lemma differ_outside_alnum_clean (s1 : string) : forall s2,
  string_forall isalnum s1 = true ->
  differ_outside_alnum s1 s2 ->
  s1 = s2.
Proof.
  induction s1 as [|a r1 IH]; intros [|b r2]; cbn; try contradiction.
  - reflexivity.
  - rewrite andb_true_iff. intros [Ha Hr] [Hab Hrest].
    rewrite (IH r2 Hr Hrest). f_equal.
    destruct Hab as [E|[Ea _]]; [exact E|]. rewrite Ea in Ha. discriminate Ha.
Qed.

End Sanitiser.

(** X7: the sanitised name of any serial consists of alphanumeric
    characters and underscores only; it holds no slash and no dot, so every
    image path is the scratch directory, one slash, that name and the
    extension: no serial can place a file outside the scratch directory. *)
Theorem image_paths_stay_in_scratch (item : Item) :
  string_forall alnum_or_underscore (safe_sn (serial item)) = true /\
  (forall c, In c (list_ascii_of_string (safe_sn (serial item))) ->
             c <> "/"%char /\ c <> "."%char) /\
  image_path item
    = (TEMP_IMG_DIR ++ "/" ++ safe_sn (serial item) ++ ".png")%string.
Proof.
  pose proof (join_map_charset (str (serial item))) as Hset.
  split; [exact Hset|]. split; [|apply image_path_eq].
  intros c Hin.
  pose proof (string_forall_In _ _ c Hset Hin) as Hc.
  split; intros ->; discriminate Hc.
Qed.

(** X8: sanitising is idempotent, and it leaves a serial unchanged exactly
    when every character of the serial is alphanumeric or an underscore; a
    purely alphanumeric serial is therefore its own file name. *)
Theorem sanitising_is_idempotent (s : string) :
  safe_sn (Some (safe_sn (Some s))) = safe_sn (Some s) /\
  (safe_sn (Some s) = s <-> string_forall alnum_or_underscore s = true).
Proof.
  split; [|apply join_map_fixed].
  apply join_map_fixed, join_map_charset.
Qed.

(** X9: two records get the same image path exactly when their serials
    have the same length and agree at every position where either has an
    alphanumeric character; a serial made of alphanumeric characters only
    shares its path with no other serial. *)
Theorem image_paths_collide_iff (it1 it2 : Item) :
  (image_path it1 = image_path it2 <->
   differ_outside_alnum (str (serial it1)) (str (serial it2))) /\
  (string_forall isalnum (str (serial it1)) = true ->
   image_path it1 = image_path it2 ->
   str (serial it1) = str (serial it2)).
Proof.
  assert (H : image_path it1 = image_path it2 <->
              differ_outside_alnum (str (serial it1)) (str (serial it2))).
  { rewrite image_path_inj. apply join_map_collide. }
  split; [exact H|].
  intros Hclean Hpath. apply differ_outside_alnum_clean; [exact Hclean|].
  apply H, Hpath.
Qed.

Lemma image_paths_collide_iff_witness :
  let it1 := mkItem (Some "ABC123") (Some "Laptop A") in
  let it2 := mkItem (Some "ABC-123") None in
  string_forall isalnum (str (serial it1)) = true /\
  (image_path it1 = image_path it2 -> str (serial it1) = str (serial it2)) /\
  image_path it1 <> image_path it2.
Proof.
  intros it1 it2. split; [reflexivity|]. split.
  - destruct (image_paths_collide_iff it1 it2) as [_ H]. exact (H eq_refl).
  - discriminate.
Defined.

Lemma image_paths_stay_in_scratch_witness :
  let item := mkItem (Some "../../etc/passwd") None in
  In "_"%char (list_ascii_of_string (safe_sn (serial item))) /\
  ("_"%char <> "/"%char /\ "_"%char <> "."%char) /\
  image_path item = "temp_barcodes/______etc_passwd.png".
Proof.
  intros item.
  assert (Hin : In "_"%char (list_ascii_of_string (safe_sn (serial item))))
    by (left; reflexivity).
  destruct (image_paths_stay_in_scratch item) as [_ [Hchars Hpath]].
  split; [exact Hin|]. split; [exact (Hchars _ Hin)|].
  rewrite Hpath. reflexivity.
Defined.

Lemma sanitising_is_idempotent_witness :
  string_forall alnum_or_underscore "ABC123" = true /\
  safe_sn (Some "ABC123") = "ABC123".
Proof.
  split; [reflexivity|].
  destruct (sanitising_is_idempotent "ABC123") as [_ [_ H]].
  exact (H eq_refl).
Defined.

(** ** Images on disk *)

Section Images.

Implicit Types (items : list Item) (m : gmap string File).

Lemma write_images_app (pre post : list Item) m :
  write_images (pre ++ post) m = write_images post (write_images pre m).
Proof. unfold write_images. apply foldl_app. Qed.

Lemma write_images_last_writer (pre post : list Item) (item : Item) m :
  image_path item ∉ map image_path post ->
  write_images (pre ++ item :: post) m !! image_path item
    = Some (image_file item).
Proof.
  intros Hlast. rewrite write_images_app. cbn.
  fold (write_images post
          (<[image_path item := image_file item]> (write_images pre m))).
  rewrite (write_images_lookup_notin post _ _ Hlast).
  apply lookup_insert_eq.
Qed.


Lemma elem_of_grid_of items (row : list Cell) (c : Cell) :
  row ∈ grid_of items -> c ∈ row ->
  c = [] \/ exists item, item ∈ items /\ c = cell_of item.
Proof.
  intros Hrow Hc.
  assert (Hin : c ∈ concat (grid_of items)).
  { apply list_elem_of_In, in_concat. exists row.
    split; apply list_elem_of_In; assumption. }
  unfold grid_of in Hin. rewrite concat_pad_last, grid_of_flat in Hin.
  apply elem_of_app in Hin as [Hin|Hin].
  - right. apply list_elem_of_fmap in Hin as [item [-> Hitem]].
    exists item. split; [exact Hitem|reflexivity].
  - left. destruct (Nat.eqb _ 0); [inversion Hin|].
    apply list_elem_of_singleton in Hin. exact Hin.
Qed.

End Images.

(** X10: after the loop, the file at a record's image path holds the
    barcode of the unsanitised serial of the last record written to that
    path, rendered with the fixed options: for a record that no later
    record shares its path with, the file encodes that record's own
    serial. *)
Theorem last_record_owns_the_image (env : Env) (df : DataFrame) (w : World)
    (pre post : list Item) (item : Item) :
  Forall (renders env) (df_rows df) ->
  df_rows df = pre ++ item :: post ->
  image_path item ∉ map image_path post ->
  exists grid w',
    build_table_data env df w = (Return grid, w') /\
    fs w' !! image_path item
      = Some (BarcodePng (str (serial item)) barcode_options).
Proof.
  intros Hall Hrows Hlast. eexists _, _.
  split; [apply (build_table_data_ok env df w Hall)|].
  cbn [fs]. rewrite Hrows.
  apply (write_images_last_writer pre post item (fs w) Hlast).
Qed.

Lemma last_record_owns_the_image_witness :
  let it1 := mkItem (Some "A-1") (Some "Laptop A") in
  let it2 := mkItem (Some "B 2") None in
  let it3 := mkItem (Some "A.1") (Some "Laptop C") in
  exists grid w',
    build_table_data Sample.quiet (Sample.frame [it1; it2; it3])
      Sample.empty_world = (Return grid, w') /\
    fs w' !! "temp_barcodes/B_2.png" = Some (BarcodePng "B 2" barcode_options).
Proof.
  intros it1 it2 it3.
  apply (last_record_owns_the_image Sample.quiet
           (Sample.frame [it1; it2; it3]) Sample.empty_world [it1] [it3] it2).
  - repeat constructor.
  - reflexivity.
  - intros Hin. apply list_elem_of_singleton in Hin. discriminate Hin.
Defined.

(** X11: when the loop has finished, every image a cell of the grid refers
    to is a barcode image on disk: the grid handed to the table has no
    dangling reference. *)
Theorem grid_images_exist (env : Env) (df : DataFrame) (w : World) :
  Forall (renders env) (df_rows df) ->
  exists grid w',
    build_table_data env df w = (Return grid, w') /\
    forall row c p,
      row ∈ grid -> c ∈ row -> cell_image c = Some p ->
      exists payload,
        fs w' !! p = Some (BarcodePng payload barcode_options).
Proof.
  intros Hall. eexists _, _.
  split; [apply (build_table_data_ok env df w Hall)|].
  intros row c p Hrow Hc Hp. cbn [fs].
  destruct (elem_of_grid_of _ row c Hrow Hc) as [->|[item [Hitem ->]]];
    [discriminate Hp|].
  cbn in Hp. injection Hp as <-.
  assert (Hin : image_path item ∈ map image_path (df_rows df)).
  { apply list_elem_of_fmap. exists item. split; [reflexivity|exact Hitem]. }
  destruct (write_images_lookup_in (df_rows df) (fs w) _ Hin)
    as [it [_ [_ Hlook]]].
  exists (str (serial it)). exact Hlook.
Qed.

Lemma grid_images_exist_witness :
  exists grid w',
    build_table_data Sample.quiet (Sample.frame Sample.three)
      Sample.empty_world = (Return grid, w') /\
    forall row c p,
      row ∈ grid -> c ∈ row -> cell_image c = Some p ->
      exists payload,
        fs w' !! p = Some (BarcodePng payload barcode_options).
Proof.
  apply (grid_images_exist Sample.quiet (Sample.frame Sample.three)
           Sample.empty_world).
  repeat constructor.
Defined.

(** ** Running the program again *)

Section Rerun.

Variable env : Env.





End Rerun.



(** ** What the console says *)

Section Report.

Variable env : Env.

(** The ways a run of the assembler can end, by what it printed. *)
Lemma create_pdf_outcomes (df : DataFrame) (w w' : World) r :
  create_pdf env df w = (r, w') ->
  exists out,
    console w' = console w ++ out /\
    ((forall path, MsgPdfSuccess path ∉ out) \/
     (r = Return tt /\
      exists grid,
        fs w' !! PDF_FILENAME = Some (PdfFile the_doc [make_table grid]))).
Proof.
  unfold create_pdf, bind. cbn [print].
  set (w0 := mkWorld (fs w) (console w ++ [MsgPdfInfo PDF_FILENAME])).
  assert (Hquiet : forall path, MsgPdfSuccess path ∉ [MsgPdfInfo PDF_FILENAME]).
  { intros path Hin. apply list_elem_of_singleton in Hin. discriminate Hin. }
  destruct (os_makedirs TEMP_IMG_DIR w0) as [[[]|e] w1] eqn:E1.
  2:{ intros [= <- <-]. exists [MsgPdfInfo PDF_FILENAME].
      rewrite (os_makedirs_console _ _ _ _ E1). split; [reflexivity|].
      left. exact Hquiet. }
  apply os_makedirs_console in E1.
  destruct (build_table_data env df w1) as [[grid|e] w2] eqn:E2.
  2:{ intros [= <- <-]. exists [MsgPdfInfo PDF_FILENAME].
      rewrite (build_table_data_console _ _ _ _ _ E2), E1.
      split; [reflexivity|]. left. exact Hquiet. }
  apply build_table_data_console in E2.
  unfold try_except_Exception, bind, doc_build.
  destruct (build_raises env the_doc [make_table grid] (fs w2))
    as [[e partial]|] eqn:E3.
  - destruct (isinstance_Exception e); cbn; intros [= <- <-].
    + exists [MsgPdfInfo PDF_FILENAME; MsgPdfError (str_exc e)].
      split.
      { destruct partial; cbn; rewrite E2, E1; cbn;
          rewrite <- app_assoc; reflexivity. }
      left. intros path Hin.
      repeat (apply elem_of_cons in Hin as [Hin|Hin]; [discriminate Hin|]).
      inversion Hin.
    + exists [MsgPdfInfo PDF_FILENAME].
      split; [destruct partial; cbn; rewrite E2, E1; reflexivity|].
      left. exact Hquiet.
  - cbn. intros [= <- <-].
    exists [MsgPdfInfo PDF_FILENAME;
            MsgPdfSuccess (os_path_abspath env PDF_FILENAME)].
    split; [cbn; rewrite E2, E1; cbn; rewrite <- app_assoc; reflexivity|].
    right. split; [reflexivity|]. exists grid. cbn. apply lookup_insert_eq.
Qed.

Lemma main_outcomes (w w' : World) r :
  main env w = (r, w') ->
  exists out,
    console w' = console w ++ out /\
    ((forall path, MsgPdfSuccess path ∉ out) \/
     (r = Return tt /\
      exists grid,
        fs w' !! PDF_FILENAME = Some (PdfFile the_doc [make_table grid]))).
Proof.
  unfold main, bind.
  destruct (get_data_from_db env w) as [[df|e] w1] eqn:E1.
  2:{ intros [= <- <-].
      assert (Hcon : console w1 = console w).
      { revert E1.
        unfold get_data_from_db, bind, os_path_exists, read_sql_query, ret, print.
        destruct (fs w !! DB_FILE) as [f|] eqn:Hdb; cbn.
        - rewrite Hdb. destruct f as [|[laptops|]| | | |];
            intros H; inversion H; reflexivity.
        - intros H; inversion H. }
      exists []. rewrite app_nil_r. split; [exact Hcon|].
      left. intros path Hin. inversion Hin. }
  destruct (get_data_from_db_returns env w w1 df E1) as [_ [Hcon _]].
  cbn [print].
  set (line := MsgRecords (format_nat (df_len df))).
  assert (Hpre : exists pre,
             console w1 ++ [line] = console w ++ pre /\
             forall path, MsgPdfSuccess path ∉ pre).
  { destruct Hcon as [->| ->].
    - exists [line]. split; [reflexivity|].
      intros path Hin. apply list_elem_of_singleton in Hin. discriminate Hin.
    - exists [MsgDbNotFound DB_FILE; line].
      split; [rewrite <- app_assoc; reflexivity|].
      intros path Hin.
      repeat (apply elem_of_cons in Hin as [Hin|Hin]; [discriminate Hin|]).
      inversion Hin. }
  destruct Hpre as [pre [Hpre Hclean]].
  destruct (negb (df_empty df)).
  - intros Hrun.
    destruct (create_pdf_outcomes df _ _ _ Hrun) as [out [Hout Hcase]].
    cbn [console] in Hout. exists (pre ++ out).
    split; [rewrite Hout, Hpre, <- app_assoc; reflexivity|].
    destruct Hcase as [Hnone|Hdone]; [left|right; exact Hdone].
    intros path Hin. apply elem_of_app in Hin as [Hin|Hin];
      [exact (Hclean path Hin)|exact (Hnone path Hin)].
  - unfold print. cbn. intros [= <- <-]. cbn.
    exists (pre ++ [MsgNoData]).
    split; [rewrite Hpre, <- app_assoc; reflexivity|].
    left. intros path Hin. apply elem_of_app in Hin as [Hin|Hin];
      [exact (Hclean path Hin)|].
    apply list_elem_of_singleton in Hin. discriminate Hin.
Qed.

End Report.

(** X13: the success line can be trusted.  Whatever the libraries do, if a
    run of [main] printed the success line, then the run returned normally
    and the document path holds a fully written document made of one table
    of the assembler. *)
Theorem success_line_means_document (env : Env) (w : World)
    (out : list Msg) (path : string) :
  console (snd (main env w)) = console w ++ out ->
  MsgPdfSuccess path ∈ out ->
  fst (main env w) = Return tt /\
  exists grid,
    fs (snd (main env w)) !! PDF_FILENAME
      = Some (PdfFile the_doc [make_table grid]).
Proof.
  intros Hout Hin.
  destruct (main_outcomes env w (snd (main env w)) (fst (main env w))
              (surjective_pairing _)) as [out' [Hout' Hcase]].
  rewrite Hout in Hout'. apply app_inv_head in Hout'. subst out'.
  destruct Hcase as [Hnone|Hdone]; [destruct (Hnone path Hin)|exact Hdone].
Qed.

Lemma success_line_means_document_witness :
  let w := Sample.with_db [mkRow (Some "ABC123") (Some "Laptop A")] in
  let path := "/srv/inventaris/inventaris_barcodes.pdf" in
  fst (main Sample.quiet w) = Return tt /\
  exists grid,
    fs (snd (main Sample.quiet w)) !! PDF_FILENAME
      = Some (PdfFile the_doc [make_table grid]).
Proof.
  intros w path.
  apply (success_line_means_document Sample.quiet w
           [MsgRecords "1"; MsgPdfInfo PDF_FILENAME; MsgPdfSuccess path] path).
  - vm_compute. reflexivity.
  - right. right. left.
Defined.
